(** * DFRobot 16x8 RGB LED panel driver: the command-buffer encoder

    A shallow embedding of [dfrobot_rgb_panel.py] (class [Panel]) and the
    properties of its register/buffer encoding.

    The driver object owns a [bytearray]; every drawing method stores a few
    bytes into it and, when [_auto_write] is set, calls [show], which hands
    the buffer to the I2C device.  Methods are embedded as computations in a
    state-and-exception monad over the driver object together with the two
    things it acts on: the I2C bus (a log of the frames written) and the
    console (a log of the printed lines).

    Modelling choices:
    - a byte is a [Z] in 0..255; a store of anything else into the
      bytearray raises [ValueError] and a store outside it [IndexError],
      as Python's [bytearray] does;
    - a bus write always completes (transport errors belong to the bus
      library);
    - only construction with an I2C bus is embedded: without one,
      [__init__] prints a usage line and leaves an object with no
      attributes. *)

From Stdlib Require Import ZArith String Ascii Lia.
From stdpp Require Import base list.

Open Scope Z_scope.

(** ** Python values that reach the driver *)

(** The exceptions a [bytearray] store can raise. *)
Inductive exn : Type :=
| IndexError
| ValueError.

(** A Python [str] is a sequence of code points; [ord] of a one-character
    string is its code point. *)
Abbreviation pystr := (list Z) (only parsing).

Definition ord (ch : Z) : Z := ch.

(** The code points of a string literal. *)
Definition str (s : string) : pystr :=
  map (fun a => Z.of_N (N_of_ascii a)) (list_ascii_of_string s).

(** 7-bit ASCII text. *)
Definition ascii_text (text : pystr) : Prop :=
  Forall (fun ch => 0 <= ch < 128) text.

(** The argument of [scroll] is untyped in the source: [None], an integer,
    a boolean, or some object that no integer equals (here a string). *)
Inductive pyobj : Type :=
| PyNone
| PyInt (z : Z)
| PyBool (b : bool)
| PyStr (s : pystr).

(** [v == n] for an integer [n] ([True == 1] and [False == 0] in Python). *)
Definition py_eq_int (v : pyobj) (n : Z) : bool :=
  match v with
  | PyInt z => z =? n
  | PyBool b => (if b then 1 else 0) =? n
  | PyNone | PyStr _ => false
  end.

Definition is_None (v : pyobj) : bool :=
  match v with PyNone => true | _ => false end.

(** ** The driver object and its surroundings *)

Record state : Type := mkState {
  _RGBAddress : Z;
  i2c_device : list Z;          (* the I2CDevice list, each by its address *)
  _buffer_size : nat;
  _buffer : list Z;             (* the bytearray *)
  _auto_write : bool;
  i2c_bus : list (Z * list Z);  (* frames written so far: (address, bytes) *)
  stdout : list string          (* lines printed so far *)
}.

Definition set_buffer (b : list Z) (s : state) : state :=
  mkState (_RGBAddress s) (i2c_device s) (_buffer_size s) b
          (_auto_write s) (i2c_bus s) (stdout s).

Definition set_auto_write (a : bool) (s : state) : state :=
  mkState (_RGBAddress s) (i2c_device s) (_buffer_size s) (_buffer s)
          a (i2c_bus s) (stdout s).

Definition push_frame (addr : Z) (frame : list Z) (s : state) : state :=
  mkState (_RGBAddress s) (i2c_device s) (_buffer_size s) (_buffer s)
          (_auto_write s) (i2c_bus s ++ [(addr, frame)]) (stdout s).

Definition push_line (line : string) (s : state) : state :=
  mkState (_RGBAddress s) (i2c_device s) (_buffer_size s) (_buffer s)
          (_auto_write s) (i2c_bus s) (stdout s ++ [line]).

(** ** The monad: state threaded through, exceptions cut the rest short *)

Inductive outcome (A : Type) : Type :=
| Return (a : A)
| Raise (e : exn).
Arguments Return {A} a.
Arguments Raise {A} e.

Definition M (A : Type) : Type := state -> state * outcome A.

Definition ret {A} (a : A) : M A := fun s => (s, Return a).

Definition raise {A} (e : exn) : M A := fun s => (s, Raise e).

Definition bind {A B} (m : M A) (k : A -> M B) : M B :=
  fun s =>
    match m s with
    | (s', Return a) => k a s'
    | (s', Raise e) => (s', Raise e)
    end.

#[global] Instance M_ret : MRet M := @ret.
#[global] Instance M_bind : MBind M := fun A B k m => bind m k.

(** [for x in xs: body(x)] *)
Fixpoint for_ {A} (xs : list A) (body : A -> M unit) : M unit :=
  match xs with
  | [] => ret tt
  | x :: rest => body x ;; for_ rest body
  end.

(** [range(n)] *)
Definition range (n : nat) : list nat := seq 0 n.

(** [enumerate(xs)] *)
Definition enumerate {A} (xs : list A) : list (nat * A) := imap pair xs.

(** The state a computation ends in, whether it returned or raised. *)
Definition after {A} (m : M A) (s : state) : state := fst (m s).

Definition result {A} (m : M A) (s : state) : outcome A := snd (m s).

(** ** Primitive actions *)

(** [self._buffer[i]] *)
Definition getitem (i : nat) : M Z :=
  fun s =>
    match _buffer s !! i with
    | Some v => (s, Return v)
    | None => (s, Raise IndexError)
    end.

(** [self._buffer[i] = v]: the index must be inside the bytearray and the
    value must be a byte. *)
Definition setitem (i : nat) (v : Z) : M unit :=
  fun s =>
    if (i <? length (_buffer s))%nat then
      if (0 <=? v) && (v <? 256) then (set_buffer (<[i:=v]> (_buffer s)) s, Return tt)
      else (s, Raise ValueError)
    else (s, Raise IndexError).

(** [text[i]] *)
Definition str_getitem (text : pystr) (i : nat) : M Z :=
  fun s =>
    match text !! i with
    | Some ch => (s, Return ch)
    | None => (s, Raise IndexError)
    end.

(** The builtin [print(line)]. *)
Definition py_print (line : string) : M unit :=
  fun s => (push_line line s, Return tt).

(** [with i2c_dev: i2c_dev.write(buffer)]: one write transaction. *)
Definition i2c_write (addr : Z) (frame : list Z) : M unit :=
  fun s => (push_frame addr frame s, Return tt).

Definition get_auto_write : M bool := fun s => (s, Return (_auto_write s)).

(** ** Class [Panel] *)

Module Panel.

Definition write_reg : Z := 0x02.
Definition COLOR : Z := 0x03.
Definition PIX_X : Z := 0x04.
Definition PIX_Y : Z := 0x05.
Definition BITMAP : Z := 0x06.
Definition STR : Z := 0x07.

Definition UNCLEAR : Z := 0x0.
Definition CLEAR : Z := 0x1.
Definition Left : Z := Z.shiftl 0x0 1.
Definition Right : Z := Z.shiftl 0x01 1.

Definition UNSCROLL : Z := Z.shiftl 0x0 2.
Definition SCROLL : Z := Z.shiftl 0x1 2.
Definition PIX_ENABLE : Z := Z.shiftl 0x01 3.
Definition BITMAP_ENABLE : Z := Z.shiftl 0x10 3.
Definition STR_ENABLE : Z := Z.shiftl 0x11 3.

Definition QUENCH : Z := 0.
Definition RED : Z := 1.
Definition GREEN : Z := 2.
Definition YELLOW : Z := 3.
Definition BLUE : Z := 4.
Definition PURRPLE : Z := 5.
Definition CYAN : Z := 6.
Definition WHITE : Z := 7.
Definition SIZE : nat := 50.

(** [__init__] with an I2C bus given: one device, a zeroed bytearray of
    [_buffer_size * len(i2c_device)] bytes.  The bus and the console start
    empty. *)
Definition __init__ (auto_write : bool) (address : Z) : state :=
  let devices := [address] in
  let size := 17%nat in
  mkState address devices size (replicate (size * length devices) 0)
          auto_write [] [].

(** [auto_write]: only a [bool] is accepted. *)
Definition auto_write (value : pyobj) : M unit :=
  match value with
  | PyBool b => fun s => (set_auto_write b s, Return tt)
  | _ => raise ValueError
  end.

(** [show]: for each device, write its slice of the buffer. *)
Definition show : M unit :=
  fun s =>
    for_ (enumerate (i2c_device s))
         (fun '(index, i2c_dev) =>
            fun s' =>
              let offset := (index * _buffer_size s')%nat in
              let buffer := take (_buffer_size s') (drop offset (_buffer s')) in
              i2c_write i2c_dev buffer s')
         s.

(** The common tail [if self._auto_write: self.show()]. *)
Definition flush_if_auto : M unit :=
  get_auto_write ≫= λ a : bool, if a then show else ret tt.

Definition sys_disable : M unit :=
  setitem 0 write_reg;;
  setitem 1 0x0;;
  setitem 2 0x0;;
  setitem 3 0x0;;
  flush_if_auto.

Definition sys_enable : M unit :=
  setitem 0 write_reg;;
  setitem 1 0x0;;
  setitem 2 0x1;;
  setitem 3 0x0;;
  flush_if_auto.

(** [scroll]: the flush closes each of the three branches that fall
    through to it; the guard and the last [else] return before it. *)
Definition scroll (direction : pyobj) : M unit :=
  if negb (is_None direction) && negb (py_eq_int direction Right)
     && negb (py_eq_int direction Left)
  then py_print "Usage: direction must be Panel.Right or Panel.Left"
  else
    if is_None direction then
      (b1 ← getitem 1;
       setitem 1 (Z.land b1 (Z.lnot (Z.shiftl 0x01 2))));;
      flush_if_auto
    else if py_eq_int direction Right then
      (b1 ← getitem 1;
       setitem 1 (Z.lor b1 (Z.lor (Z.shiftl 0x01 2) (Z.shiftl 0x01 1))));;
      flush_if_auto
    else if py_eq_int direction Left then
      (b1 ← getitem 1;
       setitem 1 (Z.lor b1 (Z.land (Z.shiftl 0x01 2) (Z.lnot (Z.shiftl 0x01 1)))));;
      flush_if_auto
    else ret tt.

Definition display (picIndex color : Z) : M unit :=
  setitem 0 write_reg;;
  (b1 ← getitem 1;
   setitem 1 (Z.lor (Z.land b1 0xe6) (Z.shiftl 0x02 3)));;
  setitem 2 color;;
  setitem 4 picIndex;;
  flush_if_auto.

Definition print (text : pystr) (color : Z) : M unit :=
  let length := length text in
  if (SIZE <? length)%nat
  then py_print "Usage: text length must be less than 50"
  else
    setitem 0 write_reg;;
    (b1 ← getitem 1;
     setitem 1 (Z.lor (Z.land b1 0xe6) (Z.shiftl 0x03 3)));;
    setitem 2 color;;
    for_ (range length)
         (fun i => ch ← str_getitem text i; setitem (6 + i) (ord ch));;
    flush_if_auto.

Definition pixel (x y color : Z) : M unit :=
  setitem 0 write_reg;;
  (b1 ← getitem 1;
   setitem 1 (Z.lor (Z.land b1 0xe6) (Z.shiftl 0x01 3)));;
  setitem 2 color;;
  setitem 3 x;;
  setitem 4 y;;
  flush_if_auto.

Definition fillScreen (color : Z) : M unit :=
  setitem 0 write_reg;;
  setitem 1 0x01;;
  (b1 ← getitem 1;
   setitem 1 (Z.lor (Z.land b1 0xe7) (Z.shiftl 0x01 3)));;
  setitem 2 color;;
  setitem 3 0x00;;
  setitem 4 0x00;;
  flush_if_auto.

Definition clear : M unit :=
  setitem 0 write_reg;;
  setitem 1 0x01;;
  setitem 2 0x0;;
  flush_if_auto.

End Panel.

(** ** Reading the command buffer

    Byte 1 is bit-packed.  The class constants give the layout: [CLEAR] is
    bit 0, [Right] is bit 1, [SCROLL] is bit 2 and the display mode starts
    at bit 3 ([PIX_ENABLE]); the mode is a two-bit field. *)

Definition mode_field (b1 : Z) : Z := Z.land (Z.shiftr b1 3) 0x3.

Definition clear_flag (b1 : Z) : bool := Z.testbit b1 0.

Definition scroll_direction (b1 : Z) : bool := Z.testbit b1 1.

Definition scroll_enable (b1 : Z) : bool := Z.testbit b1 2.

(** The mode of the buffer a state holds. *)
Definition mode_of (s : state) : option Z := mode_field <$> _buffer s !! 1%nat.

(** The clear flag of the buffer a state holds. *)
Definition clear_flag_of (s : state) : option bool :=
  clear_flag <$> _buffer s !! 1%nat.

(** The scroll-enable and scroll-direction bits of the buffer a state
    holds. *)
Definition scroll_bits_of (s : state) : option (bool * bool) :=
  (fun b1 => (scroll_enable b1, scroll_direction b1)) <$> _buffer s !! 1%nat.

(** The number of write transactions a call added to the bus. *)
Definition flushes (before later : state) : Z :=
  Z.of_nat (length (i2c_bus later)) - Z.of_nat (length (i2c_bus before)).

Definition is_byte (v : Z) : Prop := 0 <= v < 256.

(** What [__init__] establishes and every method keeps: one device, a
    bytearray of 17 bytes. *)
Record panel_ok (s : state) : Prop := mkPanelOk {
  ok_device : i2c_device s = [_RGBAddress s];
  ok_size : _buffer_size s = 17%nat;
  ok_length : length (_buffer s) = 17%nat;
  ok_bytes : Forall is_byte (_buffer s)
}.

(** The state after an explicit or automatic [show] on a one-panel driver. *)
Definition shown (s : state) : state :=
  push_frame (_RGBAddress s) (_buffer s) s.

Definition auto_shown (s : state) : state :=
  if _auto_write s then shown s else s.

(** Stores performed by the text loop of [print], as a pure function of the
    buffer: characters [k .. k+n-1] of [text] go to bytes [6+k .. 6+k+n-1]. *)
Fixpoint store_text (text : pystr) (k n : nat) (b : list Z) : list Z :=
  match n with
  | O => b
  | S n' =>
      match text !! k with
      | Some ch => store_text text (S k) n' (<[(6 + k)%nat := ch]> b)
      | None => b
      end
  end.

(** A property of the state that a computation keeps, whether it returns
    or raises. *)
Definition preserves {A} (P : state -> Prop) (m : M A) : Prop :=
  forall s, P s -> P (after m s).

(** Byte [j] holds [v]. *)
Definition holds (j : nat) (v : Z) (s : state) : Prop := _buffer s !! j = Some v.

(** ** Client programs

    A client drives the panel through a sequence of method calls; a call
    that raises leaves the object as it was at the raise, and the client
    may go on using it. *)

Inductive call : Type :=
| Auto_write (value : pyobj)
| Sys_disable
| Sys_enable
| Scroll (direction : pyobj)
| Display (picIndex color : Z)
| Print (text : pystr) (color : Z)
| Pixel (x y color : Z)
| FillScreen (color : Z)
| Clear
| Show.

Definition run (c : call) : M unit :=
  match c with
  | Auto_write value => Panel.auto_write value
  | Sys_disable => Panel.sys_disable
  | Sys_enable => Panel.sys_enable
  | Scroll direction => Panel.scroll direction
  | Display picIndex color => Panel.display picIndex color
  | Print text color => Panel.print text color
  | Pixel x y color => Panel.pixel x y color
  | FillScreen color => Panel.fillScreen color
  | Clear => Panel.clear
  | Show => Panel.show
  end.

Fixpoint run_all (cs : list call) (s : state) : state :=
  match cs with
  | [] => s
  | c :: rest => run_all rest (after (run c) s)
  end.

(** The calls that only draw: everything but [show] and [auto_write]. *)
Definition is_drawing (c : call) : bool :=
  match c with
  | Auto_write _ | Show => false
  | _ => true
  end.

(** Every frame on the bus went to [addr] and is 17 bytes long. *)
Definition frames_ok (addr : Z) (s : state) : Prop :=
  Forall (fun f : Z * list Z => f.1 = addr /\ length f.2 = 17%nat) (i2c_bus s).

(** A well-formed driver at address [addr] with a well-formed bus log. *)
Definition driver_ok (addr : Z) (s : state) : Prop :=
  panel_ok s /\ _RGBAddress s = addr /\ frames_ok addr s.

(** A well-formed driver at address [addr], whatever is on the bus. *)
Definition panel_at (addr : Z) (s : state) : Prop :=
  panel_ok s /\ _RGBAddress s = addr.

(** A well-formed driver with bus log [log]. *)
Definition steady (log : list (Z * list Z)) (s : state) : Prop :=
  panel_ok s /\ i2c_bus s = log.

(** Where a call can end when it started with bus log [log]: nothing
    written, or one frame written and the call returned. *)
Definition flushed_at_most_once
    (log : list (Z * list Z)) (p : state * outcome unit) : Prop :=
  i2c_bus p.1 = log \/ (p.2 = Return tt /\ exists f, i2c_bus p.1 = log ++ [f]).

(** Auto-flush is off and the bus log is [log]. *)
Definition batching (log : list (Z * list Z)) (s : state) : Prop :=
  _auto_write s = false /\ i2c_bus s = log.

(** * Properties *)

(** ** Running the monad *)

Lemma bind_eq {A B} (m : M A) (k : A -> M B) (s : state) :
  (m ≫= k) s =
  match m s with
  | (s', Return a) => k a s'
  | (s', Raise e) => (s', Raise e)
  end.
Proof. reflexivity. Qed.

Lemma bind_assoc {A B C} (m : M A) (f : A -> M B) (g : B -> M C) (s : state) :
  ((m ≫= f) ≫= g) s = (m ≫= (fun a => f a ≫= g)) s.
Proof.
  rewrite !bind_eq. destruct (m s) as [s' [a|e]]; [|reflexivity].
  rewrite bind_eq. reflexivity.
Qed.

Lemma range_check (v : Z) : is_byte v -> (0 <=? v) && (v <? 256) = true.
Proof. unfold is_byte. intros [H0 H1]. apply andb_true_intro. split; lia. Qed.

Lemma setitem_eq (i : nat) (v : Z) (s : state) :
  (i < length (_buffer s))%nat -> is_byte v ->
  setitem i v s = (set_buffer (<[i:=v]> (_buffer s)) s, Return tt).
Proof.
  intros Hi Hv. unfold setitem.
  destruct (Nat.ltb_spec i (length (_buffer s))) as [_|Hge]; [|lia].
  rewrite range_check by assumption. reflexivity.
Qed.

Lemma setitem_IndexError (i : nat) (v : Z) (s : state) :
  (length (_buffer s) <= i)%nat -> setitem i v s = (s, Raise IndexError).
Proof.
  intros Hi. unfold setitem.
  destruct (Nat.ltb_spec i (length (_buffer s))) as [Hlt|_]; [lia|reflexivity].
Qed.

Lemma bind_setitem {B} (i : nat) (v : Z) (k : unit -> M B) (s : state) :
  (i < length (_buffer s))%nat -> is_byte v ->
  (setitem i v ≫= k) s = k tt (set_buffer (<[i:=v]> (_buffer s)) s).
Proof. intros Hi Hv. rewrite bind_eq, setitem_eq by assumption. reflexivity. Qed.

Lemma bind_getitem {B} (i : nat) (v : Z) (k : Z -> M B) (s : state) :
  _buffer s !! i = Some v -> (getitem i ≫= k) s = k v s.
Proof. intros Hv. rewrite bind_eq. unfold getitem. rewrite Hv. reflexivity. Qed.

Lemma bind_str_getitem {B} (text : pystr) (i : nat) (ch : Z) (k : Z -> M B) (s : state) :
  text !! i = Some ch -> (str_getitem text i ≫= k) s = k ch s.
Proof. intros Hv. rewrite bind_eq. unfold str_getitem. rewrite Hv. reflexivity. Qed.

(** ** [show] and the automatic flush *)

Lemma show_one_device (s : state) :
  i2c_device s = [_RGBAddress s] ->
  _buffer_size s = length (_buffer s) ->
  Panel.show s = (shown s, Return tt).
Proof.
  intros Hdev Hsize. unfold Panel.show, shown. rewrite Hdev. cbn.
  rewrite bind_eq. unfold i2c_write. cbn.
  rewrite Hsize, firstn_all. reflexivity.
Qed.

Lemma flush_if_auto_eq (s : state) :
  i2c_device s = [_RGBAddress s] ->
  _buffer_size s = length (_buffer s) ->
  Panel.flush_if_auto s = (auto_shown s, Return tt).
Proof.
  intros Hdev Hsize. unfold Panel.flush_if_auto, auto_shown.
  rewrite bind_eq. unfold get_auto_write.
  destruct (_auto_write s); [apply show_one_device; assumption | reflexivity].
Qed.

Lemma buffer_auto_shown (s : state) : _buffer (auto_shown s) = _buffer s.
Proof. unfold auto_shown. destruct (_auto_write s); reflexivity. Qed.

Lemma flushes_auto_shown (s0 s : state) :
  flushes s0 (auto_shown s) = flushes s0 s + (if _auto_write s then 1 else 0).
Proof.
  unfold flushes, auto_shown, shown. destruct (_auto_write s); cbn; [|lia].
  rewrite length_app. cbn. lia.
Qed.

(** ** Bytes *)

(** A boolean property that holds of each of the 256 bytes holds of every
    byte. *)
Lemma byte_cases (P : Z -> bool) :
  forallb P (map Z.of_nat (seq 0 256)) = true ->
  forall v, is_byte v -> P v = true.
Proof.
  intros Hall v [H0 H1]. rewrite forallb_forall in Hall. apply Hall.
  apply in_map_iff. exists (Z.to_nat v). split; [lia|].
  apply in_seq. lia.
Qed.

(** Masking byte 1 and setting a mode in bits 3-4 gives a byte again, with
    that mode in the mode field and the clear flag off. *)
Lemma masked_mode (b1 m : Z) :
  is_byte b1 -> 0 <= m <= 3 ->
  let v := Z.lor (Z.land b1 0xe6) (Z.shiftl m 3) in
  is_byte v /\ mode_field v = m /\ clear_flag v = false.
Proof.
  intros Hb Hm v.
  assert (Hcheck :
    forallb (fun m => forallb (fun b =>
      let v := Z.lor (Z.land b 0xe6) (Z.shiftl m 3) in
      (0 <=? v) && (v <? 256) && (mode_field v =? m) && negb (clear_flag v))
      (map Z.of_nat (seq 0 256))) [0; 1; 2; 3] = true) by (vm_compute; reflexivity).
  rewrite forallb_forall in Hcheck.
  assert (Hin : In m [0; 1; 2; 3]) by (cbn; lia).
  specialize (Hcheck m Hin). cbv beta in Hcheck.
  pose proof (byte_cases _ Hcheck b1 Hb) as H. cbv beta zeta in H.
  fold v in H.
  apply andb_prop in H as [H Hc]. apply andb_prop in H as [H Hmode].
  apply andb_prop in H as [Hlo Hhi].
  unfold is_byte. repeat split; try lia.
  now destruct (clear_flag v).
Qed.

(** The scroll masks keep a byte a byte. *)
Lemma scroll_masks (b1 : Z) :
  is_byte b1 ->
  is_byte (Z.land b1 (Z.lnot (Z.shiftl 0x01 2))) /\
  is_byte (Z.lor b1 (Z.lor (Z.shiftl 0x01 2) (Z.shiftl 0x01 1))) /\
  is_byte (Z.lor b1 (Z.land (Z.shiftl 0x01 2) (Z.lnot (Z.shiftl 0x01 1)))).
Proof.
  intros Hb.
  pose proof (byte_cases
    (fun b =>
       let in_range v := (0 <=? v) && (v <? 256) in
       in_range (Z.land b (Z.lnot (Z.shiftl 0x01 2))) &&
       in_range (Z.lor b (Z.lor (Z.shiftl 0x01 2) (Z.shiftl 0x01 1))) &&
       in_range (Z.lor b (Z.land (Z.shiftl 0x01 2) (Z.lnot (Z.shiftl 0x01 1)))))
    ltac:(vm_compute; reflexivity) b1 Hb) as H.
  cbv beta zeta in H.
  apply andb_prop in H as [H H3]. apply andb_prop in H as [H1 H2].
  apply andb_prop in H1 as [? ?]. apply andb_prop in H2 as [? ?].
  apply andb_prop in H3 as [? ?].
  unfold is_byte. lia.
Qed.

(** ** What a well-formed driver gives *)

Lemma panel_ok_byte (s : state) (i : nat) :
  panel_ok s -> (i < 17)%nat -> exists v, _buffer s !! i = Some v /\ is_byte v.
Proof.
  intros Hok Hi.
  destruct (lookup_lt_is_Some_2 (_buffer s) i) as [v Hv].
  { rewrite (ok_length s Hok). exact Hi. }
  exists v. split; [exact Hv|].
  pose proof (ok_bytes s Hok) as Hall. rewrite Forall_lookup in Hall.
  exact (Hall i v Hv).
Qed.

Lemma panel_ok_init (auto_write : bool) (address : Z) :
  panel_ok (Panel.__init__ auto_write address).
Proof.
  split; try reflexivity.
  cbn. repeat constructor; unfold is_byte; lia.
Qed.

(** ** The methods, run on a well-formed driver with byte arguments *)

Lemma buffer_set_buffer (b : list Z) (s : state) : _buffer (set_buffer b s) = b.
Proof. reflexivity. Qed.

Lemma set_buffer_twice (b b' : list Z) (s : state) :
  set_buffer b (set_buffer b' s) = set_buffer b s.
Proof. reflexivity. Qed.

Ltac buffer_length :=
  rewrite ?buffer_set_buffer, ?length_insert; lia.

Ltac buffer_lookup :=
  rewrite ?buffer_set_buffer;
  repeat first
    [ rewrite list_lookup_insert_ne by lia
    | rewrite list_lookup_insert_eq by (rewrite ?length_insert; lia) ];
  try eassumption; try reflexivity.

(** One statement of a method body: a store, or a load of byte 1. *)
Ltac step :=
  first
    [ rewrite bind_assoc
    | rewrite bind_setitem
        by (first [buffer_length | assumption | unfold is_byte, Panel.write_reg; lia]);
      rewrite ?buffer_set_buffer, ?set_buffer_twice
    | erewrite bind_getitem by buffer_lookup ].

Ltac finish_flush :=
  rewrite flush_if_auto_eq by (first [assumption | cbn [_buffer_size set_buffer]; buffer_length]);
  reflexivity.

Lemma pixel_eq (s : state) (x y color b1 : Z) :
  panel_ok s -> _buffer s !! 1%nat = Some b1 ->
  is_byte x -> is_byte y -> is_byte color ->
  Panel.pixel x y color s =
  (auto_shown
     (set_buffer
        (<[4%nat:=y]> (<[3%nat:=x]> (<[2%nat:=color]>
           (<[1%nat:=Z.lor (Z.land b1 0xe6) (Z.shiftl 0x01 3)]>
              (<[0%nat:=Panel.write_reg]> (_buffer s)))))) s),
   Return tt).
Proof.
  intros [Hdev Hsize Hlen Hbytes] Hb1 Hx Hy Hc.
  assert (Hb : is_byte b1) by (rewrite Forall_lookup in Hbytes; eauto).
  destruct (masked_mode b1 1 Hb ltac:(lia)) as [Hv _].
  unfold Panel.pixel. repeat step. finish_flush.
Qed.

Lemma display_eq (s : state) (picIndex color b1 : Z) :
  panel_ok s -> _buffer s !! 1%nat = Some b1 ->
  is_byte picIndex -> is_byte color ->
  Panel.display picIndex color s =
  (auto_shown
     (set_buffer
        (<[4%nat:=picIndex]> (<[2%nat:=color]>
           (<[1%nat:=Z.lor (Z.land b1 0xe6) (Z.shiftl 0x02 3)]>
              (<[0%nat:=Panel.write_reg]> (_buffer s))))) s),
   Return tt).
Proof.
  intros [Hdev Hsize Hlen Hbytes] Hb1 Hp Hc.
  assert (Hb : is_byte b1) by (rewrite Forall_lookup in Hbytes; eauto).
  destruct (masked_mode b1 2 Hb ltac:(lia)) as [Hv _].
  unfold Panel.display. repeat step. finish_flush.
Qed.

Lemma fillScreen_eq (s : state) (color : Z) :
  panel_ok s -> is_byte color ->
  Panel.fillScreen color s =
  (auto_shown
     (set_buffer
        (<[4%nat:=0x00]> (<[3%nat:=0x00]> (<[2%nat:=color]>
           (<[1%nat:=Z.lor (Z.land 0x01 0xe7) (Z.shiftl 0x01 3)]>
              (<[1%nat:=0x01]> (<[0%nat:=Panel.write_reg]> (_buffer s))))))) s),
   Return tt).
Proof.
  intros [Hdev Hsize Hlen Hbytes] Hc.
  assert (Hv : is_byte (Z.lor (Z.land 0x01 0xe7) (Z.shiftl 0x01 3)))
    by (split; vm_compute; congruence).
  unfold Panel.fillScreen. repeat step. finish_flush.
Qed.

Lemma clear_eq (s : state) :
  panel_ok s ->
  Panel.clear s =
  (auto_shown
     (set_buffer
        (<[2%nat:=0x0]> (<[1%nat:=0x01]> (<[0%nat:=Panel.write_reg]> (_buffer s)))) s),
   Return tt).
Proof.
  intros [Hdev Hsize Hlen Hbytes].
  unfold Panel.clear. repeat step. finish_flush.
Qed.

(** [scroll] takes its byte-1 update from the branch the direction selects. *)
Lemma scroll_None_eq (s : state) (b1 : Z) :
  panel_ok s -> _buffer s !! 1%nat = Some b1 ->
  Panel.scroll PyNone s =
  (auto_shown
     (set_buffer (<[1%nat:=Z.land b1 (Z.lnot (Z.shiftl 0x01 2))]> (_buffer s)) s),
   Return tt).
Proof.
  intros [Hdev Hsize Hlen Hbytes] Hb1.
  assert (Hb : is_byte b1) by (rewrite Forall_lookup in Hbytes; eauto).
  destruct (scroll_masks b1 Hb) as (Hv & _ & _).
  unfold Panel.scroll. cbn [is_None py_eq_int negb andb].
  repeat step. finish_flush.
Qed.

Lemma scroll_Right_eq (s : state) (b1 : Z) :
  panel_ok s -> _buffer s !! 1%nat = Some b1 ->
  Panel.scroll (PyInt Panel.Right) s =
  (auto_shown
     (set_buffer
        (<[1%nat:=Z.lor b1 (Z.lor (Z.shiftl 0x01 2) (Z.shiftl 0x01 1))]> (_buffer s)) s),
   Return tt).
Proof.
  intros [Hdev Hsize Hlen Hbytes] Hb1.
  assert (Hb : is_byte b1) by (rewrite Forall_lookup in Hbytes; eauto).
  destruct (scroll_masks b1 Hb) as (_ & Hv & _).
  unfold Panel.scroll.
  change (py_eq_int (PyInt Panel.Right) Panel.Right) with true.
  cbn [is_None negb andb].
  repeat step. finish_flush.
Qed.

Lemma scroll_Left_eq (s : state) (b1 : Z) :
  panel_ok s -> _buffer s !! 1%nat = Some b1 ->
  Panel.scroll (PyInt Panel.Left) s =
  (auto_shown
     (set_buffer
        (<[1%nat:=Z.lor b1 (Z.land (Z.shiftl 0x01 2) (Z.lnot (Z.shiftl 0x01 1)))]>
           (_buffer s)) s),
   Return tt).
Proof.
  intros [Hdev Hsize Hlen Hbytes] Hb1.
  assert (Hb : is_byte b1) by (rewrite Forall_lookup in Hbytes; eauto).
  destruct (scroll_masks b1 Hb) as (_ & _ & Hv).
  unfold Panel.scroll.
  change (py_eq_int (PyInt Panel.Left) Panel.Right) with false.
  change (py_eq_int (PyInt Panel.Left) Panel.Left) with true.
  cbn [is_None negb andb].
  repeat step. finish_flush.
Qed.

(** The left-scroll mask is the enable bit alone: [&] binds tighter than
    [|=], so [~(0x01 << 1)] is and-ed with [0x01 << 2] before the or. *)
Lemma scroll_Left_mask :
  Z.land (Z.shiftl 0x01 2) (Z.lnot (Z.shiftl 0x01 1)) = Panel.SCROLL.
Proof. reflexivity. Qed.

(** ** What a call keeps, whether it returns or raises *)

Section Preservation.

Variable P : state -> Prop.

Lemma preserves_ret {A} (a : A) : preserves P (ret a).
Proof. intros s H. exact H. Qed.

Lemma preserves_bind {A B} (m : M A) (k : A -> M B) :
  preserves P m -> (forall a, preserves P (k a)) -> preserves P (m ≫= k).
Proof.
  intros Hm Hk s H. unfold after. rewrite bind_eq.
  specialize (Hm s H). unfold after in Hm.
  destruct (m s) as [s' [a|e]]; cbn in Hm |- *; [|exact Hm].
  exact (Hk a s' Hm).
Qed.

Lemma preserves_for {A} (xs : list A) (body : A -> M unit) :
  (forall x, preserves P (body x)) -> preserves P (for_ xs body).
Proof.
  intros Hbody. induction xs as [|x xs IH]; cbn [for_].
  - apply preserves_ret.
  - apply preserves_bind; [apply Hbody | intros _; exact IH].
Qed.

Lemma preserves_str_getitem (text : pystr) (i : nat) :
  preserves P (str_getitem text i).
Proof.
  intros s H. unfold after, str_getitem. destruct (text !! i); exact H.
Qed.

(** A property of the buffer alone survives everything that leaves the
    buffer alone. *)
Hypothesis P_frame :
  forall addr frame s, P s -> P (push_frame addr frame s).

Lemma preserves_show : preserves P Panel.show.
Proof.
  intros s H. unfold Panel.show.
  apply (preserves_for _ _) with (s := s); [|exact H].
  intros [index dev] s' H'. apply P_frame. exact H'.
Qed.

Lemma preserves_flush_if_auto : preserves P Panel.flush_if_auto.
Proof.
  intros s H. unfold after, Panel.flush_if_auto. rewrite bind_eq.
  unfold get_auto_write. destruct (_auto_write s); [|exact H].
  apply preserves_show. exact H.
Qed.

End Preservation.

Lemma preserves_setitem_other (j : nat) (v : Z) (i : nat) (w : Z) :
  i <> j -> preserves (holds j v) (setitem i w).
Proof.
  intros Hne s H. unfold after, setitem.
  destruct (i <? length (_buffer s))%nat; [|exact H].
  destruct ((0 <=? w) && (w <? 256)); [|exact H].
  unfold holds. cbn. rewrite list_lookup_insert_ne by exact Hne. exact H.
Qed.

Lemma holds_frame (j : nat) (v : Z) (addr : Z) (frame : list Z) (s : state) :
  holds j v s -> holds j v (push_frame addr frame s).
Proof. intros H. exact H. Qed.


(** ** The text loop of [print] *)

Lemma set_buffer_same (s : state) : set_buffer (_buffer s) s = s.
Proof. destruct s. reflexivity. Qed.

Lemma length_store_text (text : pystr) (n k : nat) (b : list Z) :
  length (store_text text k n b) = length b.
Proof.
  revert k b. induction n as [|n IH]; intros k b; cbn [store_text]; [reflexivity|].
  destruct (text !! k); [|reflexivity].
  rewrite IH, length_insert. reflexivity.
Qed.

(** Bytes below the first one written are left alone. *)
Lemma store_text_below (text : pystr) (n k : nat) (b : list Z) (j : nat) :
  (j < 6 + k)%nat -> store_text text k n b !! j = b !! j.
Proof.
  revert k b. induction n as [|n IH]; intros k b Hj; cbn [store_text]; [reflexivity|].
  destruct (text !! k); [|reflexivity].
  rewrite IH by lia. apply list_lookup_insert_ne. lia.
Qed.

(** Bytes above the last one written are left alone. *)
Lemma store_text_above (text : pystr) (n k : nat) (b : list Z) (j : nat) :
  (6 + k + n <= j)%nat -> store_text text k n b !! j = b !! j.
Proof.
  revert k b. induction n as [|n IH]; intros k b Hj; cbn [store_text]; [reflexivity|].
  destruct (text !! k); [|reflexivity].
  rewrite IH by lia. apply list_lookup_insert_ne. lia.
Qed.

(** Byte [6 + i] receives character [i]. *)
Lemma store_text_at (text : pystr) (n k : nat) (b : list Z) (i : nat) :
  (k + n <= length text)%nat -> (6 + k + n <= length b)%nat ->
  (k <= i < k + n)%nat ->
  store_text text k n b !! (6 + i)%nat = text !! i.
Proof.
  revert k b. induction n as [|n IH]; intros k b Htext Hbuf Hi; [lia|].
  cbn [store_text].
  destruct (lookup_lt_is_Some_2 text k ltac:(lia)) as [ch Hch]. rewrite Hch.
  destruct (decide (i = k)) as [->|Hne].
  - rewrite store_text_below by lia.
    rewrite list_lookup_insert_eq by lia. symmetry. exact Hch.
  - apply IH; rewrite ?length_insert; lia.
Qed.

Lemma text_loop_eq (text : pystr) (n k : nat) (s : state) :
  (k + n <= length text)%nat -> (6 + k + n <= length (_buffer s))%nat ->
  Forall is_byte text ->
  for_ (seq k n) (fun i => ch ← str_getitem text i; setitem (6 + i) (ord ch)) s =
  (set_buffer (store_text text k n (_buffer s)) s, Return tt).
Proof.
  intros Htext Hbuf Hbytes. revert k s Htext Hbuf.
  induction n as [|n IH]; intros k s Htext Hbuf; cbn [seq for_ store_text].
  - rewrite set_buffer_same. reflexivity.
  - destruct (lookup_lt_is_Some_2 text k ltac:(lia)) as [ch Hch]. rewrite Hch.
    assert (Hb : is_byte ch) by (rewrite Forall_lookup in Hbytes; eauto).
    rewrite bind_assoc. erewrite bind_str_getitem by exact Hch.
    unfold ord. rewrite bind_setitem by (assumption || lia).
    rewrite IH by (rewrite ?buffer_set_buffer, ?length_insert; lia).
    rewrite buffer_set_buffer, set_buffer_twice. reflexivity.
Qed.

(** When the text does not fit behind byte 6 the loop runs off the end of
    the bytearray; nothing has reached the bus by then. *)
Lemma text_loop_overflow (text : pystr) (n k : nat) (s : state) :
  (k + n <= length text)%nat -> Forall is_byte text ->
  (6 + k <= length (_buffer s) < 6 + k + n)%nat ->
  exists s',
    for_ (seq k n) (fun i => ch ← str_getitem text i; setitem (6 + i) (ord ch)) s =
    (s', Raise IndexError) /\ i2c_bus s' = i2c_bus s.
Proof.
  intros Htext Hbytes. revert k s Htext.
  induction n as [|n IH]; intros k s Htext Hbuf; [lia|].
  cbn [seq for_].
  destruct (lookup_lt_is_Some_2 text k ltac:(lia)) as [ch Hch].
  assert (Hb : is_byte ch) by (rewrite Forall_lookup in Hbytes; eauto).
  rewrite bind_assoc. erewrite bind_str_getitem by exact Hch. unfold ord.
  destruct (decide (6 + k < length (_buffer s))%nat) as [Hlt|Hge].
  - rewrite bind_setitem by assumption.
    destruct (IH (S k) (set_buffer (<[(6 + k)%nat:=ch]> (_buffer s)) s))
      as (s' & Hrun & Hbus);
      [lia | rewrite buffer_set_buffer, length_insert; lia |].
    exists s'. split; [exact Hrun | exact Hbus].
  - exists s. rewrite bind_eq, setitem_IndexError by lia. split; reflexivity.
Qed.

(** ** [print] *)

Lemma print_rejected (text : pystr) (color : Z) (s : state) :
  (Panel.SIZE < length text)%nat ->
  Panel.print text color s =
  (push_line "Usage: text length must be less than 50" s, Return tt).
Proof.
  intros Hlen. unfold Panel.print.
  destruct (Nat.ltb_spec Panel.SIZE (length text)) as [_|Hle]; [reflexivity|lia].
Qed.

(** A text that fits behind byte 6 of the 17-byte buffer is stored. *)
Lemma print_eq (s : state) (text : pystr) (color b1 : Z) :
  panel_ok s -> _buffer s !! 1%nat = Some b1 ->
  (length text <= 11)%nat -> Forall is_byte text -> is_byte color ->
  Panel.print text color s =
  (auto_shown
     (set_buffer
        (store_text text 0 (length text)
           (<[2%nat:=color]>
              (<[1%nat:=Z.lor (Z.land b1 0xe6) (Z.shiftl 0x03 3)]>
                 (<[0%nat:=Panel.write_reg]> (_buffer s))))) s),
   Return tt).
Proof.
  intros [Hdev Hsize Hlen Hbytes] Hb1 Hshort Htext Hc.
  assert (Hb : is_byte b1) by (rewrite Forall_lookup in Hbytes; eauto).
  destruct (masked_mode b1 3 Hb ltac:(lia)) as [Hv _].
  unfold Panel.print.
  destruct (Nat.ltb_spec Panel.SIZE (length text)) as [Hlong|_];
    [unfold Panel.SIZE in Hlong; lia|].
  repeat step. unfold range.
  rewrite bind_eq, text_loop_eq by (first [assumption | buffer_length]).
  rewrite buffer_set_buffer, set_buffer_twice.
  rewrite flush_if_auto_eq
    by (first [assumption
              | cbn [_buffer_size set_buffer];
                rewrite buffer_set_buffer, length_store_text, !length_insert; lia]).
  reflexivity.
Qed.

(** A longer text that passes the length check runs off the bytearray. *)
Lemma print_overflow (s : state) (text : pystr) (color : Z) :
  panel_ok s ->
  (11 < length text <= Panel.SIZE)%nat -> Forall is_byte text -> is_byte color ->
  exists s',
    Panel.print text color s = (s', Raise IndexError) /\ i2c_bus s' = i2c_bus s.
Proof.
  intros Hok Hlong Htext Hc.
  destruct (panel_ok_byte s 1 Hok ltac:(lia)) as (b1 & Hb1 & Hb).
  destruct Hok as [Hdev Hsize Hlen Hbytes].
  destruct (masked_mode b1 3 Hb ltac:(lia)) as [Hv _].
  unfold Panel.print.
  destruct (Nat.ltb_spec Panel.SIZE (length text)) as [Hover|_]; [lia|].
  repeat step. unfold range. rewrite bind_eq.
  match goal with
  | |- context [for_ _ _ ?s1] =>
      destruct (text_loop_overflow text (length text) 0 s1) as (s' & Hrun & Hbus);
        [lia | assumption | rewrite buffer_set_buffer, !length_insert; lia |]
  end.
  rewrite Hrun. exists s'. split; [reflexivity | exact Hbus].
Qed.

(** ** [scroll] with a direction it does not know *)

Lemma scroll_rejected (direction : pyobj) (s : state) :
  is_None direction = false ->
  py_eq_int direction Panel.Right = false ->
  py_eq_int direction Panel.Left = false ->
  Panel.scroll direction s =
  (push_line "Usage: direction must be Panel.Right or Panel.Left" s, Return tt).
Proof.
  intros HNone HRight HLeft. unfold Panel.scroll.
  rewrite HNone, HRight, HLeft. reflexivity.
Qed.

(** ** Byte 1 after a mode-setting call

    Byte 1 is stored before the colour, the coordinates and the text, and
    nothing later in the call touches it: it has its new value whatever the
    other arguments are and however the call ends. *)

Lemma preserves_apply {A} (P : state -> Prop) (m : M A) (s : state) :
  preserves P m -> P s -> P (after m s).
Proof. intros H. apply H. Qed.

Ltac keeps_byte :=
  repeat first
    [ apply preserves_flush_if_auto; intros; apply holds_frame; assumption
    | apply preserves_setitem_other; lia
    | apply preserves_str_getitem
    | apply preserves_for; intros ?
    | apply preserves_bind; [|intros ?] ].

Ltac rest_keeps_byte :=
  match goal with
  | |- holds ?j ?v (fst (?m ?s)) =>
      apply (preserves_apply (holds j v) m s); [keeps_byte|]
  end.

Lemma byte1_after_pixel (s : state) (x y color b1 : Z) :
  panel_ok s -> _buffer s !! 1%nat = Some b1 ->
  holds 1 (Z.lor (Z.land b1 0xe6) (Z.shiftl 0x01 3)) (after (Panel.pixel x y color) s).
Proof.
  intros [Hdev Hsize Hlen Hbytes] Hb1.
  assert (Hb : is_byte b1) by (rewrite Forall_lookup in Hbytes; eauto).
  destruct (masked_mode b1 1 Hb ltac:(lia)) as [Hv _].
  unfold after, Panel.pixel. do 4 step.
  rest_keeps_byte.
  unfold holds. buffer_lookup.
Qed.

Lemma byte1_after_display (s : state) (picIndex color b1 : Z) :
  panel_ok s -> _buffer s !! 1%nat = Some b1 ->
  holds 1 (Z.lor (Z.land b1 0xe6) (Z.shiftl 0x02 3))
        (after (Panel.display picIndex color) s).
Proof.
  intros [Hdev Hsize Hlen Hbytes] Hb1.
  assert (Hb : is_byte b1) by (rewrite Forall_lookup in Hbytes; eauto).
  destruct (masked_mode b1 2 Hb ltac:(lia)) as [Hv _].
  unfold after, Panel.display. do 4 step.
  rest_keeps_byte.
  unfold holds. buffer_lookup.
Qed.

Lemma byte1_after_print (s : state) (text : pystr) (color b1 : Z) :
  panel_ok s -> _buffer s !! 1%nat = Some b1 ->
  (length text <= Panel.SIZE)%nat ->
  holds 1 (Z.lor (Z.land b1 0xe6) (Z.shiftl 0x03 3))
        (after (Panel.print text color) s).
Proof.
  intros [Hdev Hsize Hlen Hbytes] Hb1 Hshort.
  assert (Hb : is_byte b1) by (rewrite Forall_lookup in Hbytes; eauto).
  destruct (masked_mode b1 3 Hb ltac:(lia)) as [Hv _].
  unfold after, Panel.print.
  destruct (Nat.ltb_spec Panel.SIZE (length text)) as [Hlong|_]; [lia|].
  do 4 step.
  rest_keeps_byte.
  unfold holds. buffer_lookup.
Qed.

Lemma byte1_after_fillScreen (s : state) (color : Z) :
  panel_ok s ->
  holds 1 (Z.lor (Z.land 0x01 0xe7) (Z.shiftl 0x01 3)) (after (Panel.fillScreen color) s).
Proof.
  intros [Hdev Hsize Hlen Hbytes].
  assert (Hv : is_byte (Z.lor (Z.land 0x01 0xe7) (Z.shiftl 0x01 3)))
    by (split; vm_compute; congruence).
  unfold after, Panel.fillScreen. do 5 step.
  rest_keeps_byte.
  unfold holds. buffer_lookup.
Qed.

(** ** The driver stays well formed *)

Lemma panel_ok_set_buffer (b : list Z) (s : state) :
  panel_ok s -> length b = 17%nat -> Forall is_byte b -> panel_ok (set_buffer b s).
Proof. intros [Hdev Hsize _ _] Hlen Hbytes. split; assumption. Qed.

Lemma panel_ok_auto_shown (s : state) : panel_ok s -> panel_ok (auto_shown s).
Proof.
  intros [Hdev Hsize Hlen Hbytes]. unfold auto_shown.
  destruct (_auto_write s); split; assumption.
Qed.

Lemma panel_ok_clear (s : state) : panel_ok s -> panel_ok (after Panel.clear s).
Proof.
  intros Hok. unfold after. rewrite clear_eq by exact Hok. cbn [fst].
  apply panel_ok_auto_shown. destruct Hok as [Hdev Hsize Hlen Hbytes].
  apply panel_ok_set_buffer; [split; assumption | rewrite !length_insert; exact Hlen |].
  repeat apply Forall_insert; try exact Hbytes;
    unfold is_byte, Panel.write_reg; lia.
Qed.

(** A concrete driver is well formed when its fields say so. *)
Ltac closed_panel_ok :=
  split; [reflexivity | reflexivity | reflexivity |];
  vm_compute; repeat (constructor; [split; congruence|]); constructor.

(** * The claims *)

(** C1. For every prior buffer, every colour code [c] in 0..7 and
    coordinates [x], [y] in 0..255, [pixel(x, y, c)] returns and leaves
    byte 0 equal to the write register, the mode field of byte 1 equal to
    the pixel mode 1, byte 2 equal to [c], byte 3 equal to [x], byte 4 equal
    to [y], and every byte from byte 5 on as it was. *)
Theorem pixel_encodes (s : state) (x y c : Z) :
  panel_ok s -> 0 <= c <= 7 -> 0 <= x <= 255 -> 0 <= y <= 255 ->
  let s' := after (Panel.pixel x y c) s in
  result (Panel.pixel x y c) s = Return tt /\
  _buffer s' !! 0%nat = Some Panel.write_reg /\
  mode_of s' = Some 1 /\
  _buffer s' !! 2%nat = Some c /\
  _buffer s' !! 3%nat = Some x /\
  _buffer s' !! 4%nat = Some y /\
  length (_buffer s') = length (_buffer s) /\
  forall i, (5 <= i)%nat -> _buffer s' !! i = _buffer s !! i.
Proof.
  intros Hok Hc Hx Hy s'.
  destruct (panel_ok_byte s 1 Hok ltac:(lia)) as (b1 & Hb1 & Hb).
  destruct (masked_mode b1 1 Hb ltac:(lia)) as (_ & Hmode & _).
  assert (Hrun := pixel_eq s x y c b1 Hok Hb1
                    ltac:(unfold is_byte; lia) ltac:(unfold is_byte; lia)
                    ltac:(unfold is_byte; lia)).
  subst s'. unfold result, after, mode_of. rewrite Hrun. cbn [fst snd].
  rewrite buffer_auto_shown, buffer_set_buffer.
  pose proof (ok_length s Hok) as Hlen.
  split; [reflexivity|].
  split; [buffer_lookup|].
  split; [buffer_lookup; cbn [fmap option_fmap option_map]; rewrite Hmode; reflexivity|].
  split; [buffer_lookup|].
  split; [buffer_lookup|].
  split; [buffer_lookup|].
  split; [rewrite !length_insert; reflexivity|].
  intros i Hi. buffer_lookup.
Qed.

Lemma pixel_encodes_witness :
  let s := after Panel.clear (Panel.__init__ true 0x10) in
  let s' := after (Panel.pixel 3 5 Panel.RED) s in
  result (Panel.pixel 3 5 Panel.RED) s = Return tt /\
  _buffer s' !! 0%nat = Some Panel.write_reg /\
  mode_of s' = Some 1 /\
  _buffer s' !! 2%nat = Some Panel.RED /\
  _buffer s' !! 3%nat = Some 3 /\
  _buffer s' !! 4%nat = Some 5 /\
  length (_buffer s') = length (_buffer s) /\
  forall i, (5 <= i)%nat -> _buffer s' !! i = _buffer s !! i.
Proof.
  apply (pixel_encodes (after Panel.clear (Panel.__init__ true 0x10)) 3 5 Panel.RED).
  - closed_panel_ok.
  - unfold Panel.RED. lia.
  - lia.
  - lia.
Defined.

(** What [scroll(Panel.Left)] does to byte 1: it ors in the enable bit and
    nothing else, so the direction bit stays as it was. *)
Lemma scroll_Left_byte1 (s : state) (b1 : Z) :
  panel_ok s -> _buffer s !! 1%nat = Some b1 ->
  let s' := after (Panel.scroll (PyInt Panel.Left)) s in
  exists v, _buffer s' !! 1%nat = Some v /\
            scroll_enable v = true /\
            scroll_direction v = scroll_direction b1.
Proof.
  intros Hok Hb1 s'. subst s'. unfold after.
  rewrite (scroll_Left_eq s b1 Hok Hb1). cbn [fst].
  rewrite buffer_auto_shown, buffer_set_buffer.
  pose proof (ok_length s Hok) as Hlen.
  eexists. split; [buffer_lookup|].
  rewrite scroll_Left_mask. unfold scroll_enable, scroll_direction, Panel.SCROLL.
  rewrite !Z.lor_spec. split; [apply orb_true_r | apply orb_false_r].
Qed.

(** C2. [scroll(Panel.Left)] on a buffer whose direction bit is set: after
    [scroll(Panel.Right)] byte 1 is 6, and [scroll(Panel.Left)] leaves it 6,
    with the enable bit 1 and the direction bit still 1. *)
Theorem scroll_Left_after_Right :
  let s0 := Panel.__init__ false 0x10 in
  let s1 := after (Panel.scroll (PyInt Panel.Right)) s0 in
  let s2 := after (Panel.scroll (PyInt Panel.Left)) s1 in
  _buffer s1 !! 1%nat = Some 6 /\
  result (Panel.scroll (PyInt Panel.Left)) s1 = Return tt /\
  _buffer s2 !! 1%nat = Some 6 /\
  scroll_enable 6 = true /\
  scroll_direction 6 = true.
Proof. vm_compute. repeat split. Qed.

(** C3, as claimed, fails: on a fresh driver [fillScreen(RED)] leaves
    byte 1 equal to 9, whose mode field is 1 and not 0. *)
Lemma fillScreen_mode_not_0 :
  let s' := after (Panel.fillScreen Panel.RED) (Panel.__init__ true 0x10) in
  result (Panel.fillScreen Panel.RED) (Panel.__init__ true 0x10) = Return tt /\
  _buffer s' !! 1%nat = Some 9 /\
  mode_of s' = Some 1 /\
  mode_of s' <> Some 0.
Proof. vm_compute. repeat split. discriminate. Qed.

(** C3, amended. For every prior buffer and every colour [c], after
    [fillScreen(c)] byte 1 is 9: the mode field is 1, the value [pixel]
    selects, and the clear flag is set. *)
Theorem fillScreen_mode (s : state) (c : Z) :
  panel_ok s ->
  let s' := after (Panel.fillScreen c) s in
  _buffer s' !! 1%nat = Some 9 /\ mode_of s' = Some 1.
Proof.
  intros Hok s'. pose proof (byte1_after_fillScreen s c Hok) as H.
  fold s' in H. unfold holds in H. unfold mode_of. rewrite H.
  split; reflexivity.
Qed.

Lemma fillScreen_mode_witness :
  let s := after (Panel.print (str "Hello World") Panel.WHITE) (Panel.__init__ true 0x10) in
  let s' := after (Panel.fillScreen Panel.BLUE) s in
  _buffer s' !! 1%nat = Some 9 /\ mode_of s' = Some 1.
Proof.
  apply (fillScreen_mode
           (after (Panel.print (str "Hello World") Panel.WHITE) (Panel.__init__ true 0x10))
           Panel.BLUE).
  closed_panel_ok.
Defined.

(** X13. [print] of an ASCII text of at most 11 characters returns with
    the string mode 3 in the mode field, the colour in byte 2 and the code
    of character [i] in byte [6 + i]; the bytes behind the text are as they
    were. *)
Lemma print_short_text (s : state) (text : pystr) (c : Z) :
  panel_ok s -> (length text <= 11)%nat -> ascii_text text -> 0 <= c <= 7 ->
  let s' := after (Panel.print text c) s in
  result (Panel.print text c) s = Return tt /\
  mode_of s' = Some 3 /\
  _buffer s' !! 2%nat = Some c /\
  (forall i ch, text !! i = Some ch -> _buffer s' !! (6 + i)%nat = Some (ord ch)) /\
  (forall j, (6 + length text <= j)%nat -> _buffer s' !! j = _buffer s !! j).
Proof.
  intros Hok Hshort Htext Hc s'.
  destruct (panel_ok_byte s 1 Hok ltac:(lia)) as (b1 & Hb1 & Hb).
  destruct (masked_mode b1 3 Hb ltac:(lia)) as (_ & Hmode & _).
  assert (Hbytes : Forall is_byte text).
  { eapply Forall_impl; [exact Htext|]. unfold is_byte. intros ch Hch.
    cbv beta in Hch. lia. }
  assert (Hrun := print_eq s text c b1 Hok Hb1 Hshort Hbytes
                    ltac:(unfold is_byte; lia)).
  subst s'. unfold result, after, mode_of. rewrite Hrun. cbn [fst snd].
  rewrite buffer_auto_shown, buffer_set_buffer.
  pose proof (ok_length s Hok) as Hlen.
  split; [reflexivity|].
  split; [rewrite store_text_below by lia; buffer_lookup;
          cbn [fmap option_fmap option_map]; rewrite Hmode; reflexivity|].
  split; [rewrite store_text_below by lia; buffer_lookup|].
  split.
  - intros i ch Hch. pose proof (lookup_lt_Some _ _ _ Hch) as Hi.
    rewrite store_text_at by (rewrite ?length_insert; lia).
    exact Hch.
  - intros j Hj. rewrite store_text_above by lia. buffer_lookup.
Qed.

(** C4. [print] of a 12-character ASCII text on a fresh driver: the
    length check passes, bytes 6..16 receive the first eleven characters,
    and the store of the twelfth into byte 17 raises [IndexError]. *)
Theorem print_12_chars_raises :
  let s := Panel.__init__ false 0x10 in
  let text := str "Hello World!" in
  (length text <= Panel.SIZE)%nat /\
  ascii_text text /\
  result (Panel.print text Panel.RED) s = Raise IndexError /\
  length (_buffer (after (Panel.print text Panel.RED) s)) = 17%nat /\
  _buffer (after (Panel.print text Panel.RED) s) !! 17%nat = None.
Proof.
  cbv zeta. split; [vm_compute; lia|].
  split; [|vm_compute; repeat split].
  unfold ascii_text. vm_compute.
  repeat (constructor; [split; congruence|]). constructor.
Qed.

(** C5. Validation failures are atomic and never flush.  Whatever the
    driver state - auto-flush on or off - [print] of a text longer than 50
    characters, and [scroll] with a direction that is not [None] and equals
    neither [Panel.Left] nor [Panel.Right], print their usage line and
    return, with the command buffer unchanged and nothing written to the
    bus. *)
Theorem validation_failures_atomic
    (s : state) (text : pystr) (c : Z) (direction : pyobj) :
  (50 < length text)%nat ->
  is_None direction = false ->
  py_eq_int direction Panel.Left = false ->
  py_eq_int direction Panel.Right = false ->
  let s1 := after (Panel.print text c) s in
  let s2 := after (Panel.scroll direction) s in
  (result (Panel.print text c) s = Return tt /\
   stdout s1 = stdout s ++ ["Usage: text length must be less than 50"%string] /\
   _buffer s1 = _buffer s /\
   i2c_bus s1 = i2c_bus s) /\
  (result (Panel.scroll direction) s = Return tt /\
   stdout s2 = stdout s ++ ["Usage: direction must be Panel.Right or Panel.Left"%string] /\
   _buffer s2 = _buffer s /\
   i2c_bus s2 = i2c_bus s).
Proof.
  intros Hlong HNone HLeft HRight s1 s2. subst s1 s2. unfold result, after.
  rewrite print_rejected by (unfold Panel.SIZE; exact Hlong).
  rewrite scroll_rejected by assumption.
  repeat split.
Qed.

Lemma validation_failures_atomic_witness :
  let s := after (Panel.pixel 3 5 Panel.RED) (Panel.__init__ true 0x10) in
  let text := replicate 51 65 in
  let s1 := after (Panel.print text Panel.RED) s in
  let s2 := after (Panel.scroll (PyInt 1)) s in
  (result (Panel.print text Panel.RED) s = Return tt /\
   stdout s1 = stdout s ++ ["Usage: text length must be less than 50"%string] /\
   _buffer s1 = _buffer s /\
   i2c_bus s1 = i2c_bus s) /\
  (result (Panel.scroll (PyInt 1)) s = Return tt /\
   stdout s2 = stdout s ++ ["Usage: direction must be Panel.Right or Panel.Left"%string] /\
   _buffer s2 = _buffer s /\
   i2c_bus s2 = i2c_bus s).
Proof.
  apply (validation_failures_atomic
           (after (Panel.pixel 3 5 Panel.RED) (Panel.__init__ true 0x10))
           (replicate 51 65) Panel.RED (PyInt 1)).
  - vm_compute. lia.
  - reflexivity.
  - reflexivity.
  - reflexivity.
Defined.

(** C6, as claimed, fails for [fillScreen]: on a buffer whose mode field
    is 3 (left by a [print]), [fillScreen(BLUE)] returns with byte 1 equal
    to 9, so the mode field is 1 - the value [pixel] selects - and not the
    fill value 0. *)
Lemma fillScreen_selects_pixel_mode :
  let s := after (Panel.print (str "Hello World") Panel.WHITE) (Panel.__init__ true 0x10) in
  let s' := after (Panel.fillScreen Panel.BLUE) s in
  mode_of s = Some 3 /\
  result (Panel.fillScreen Panel.BLUE) s = Return tt /\
  _buffer s' !! 1%nat = Some 9 /\
  mode_of s' = Some 1 /\
  mode_of s' <> Some 0 /\
  mode_of s' = mode_of (after (Panel.pixel 0 0 Panel.BLUE) s).
Proof. vm_compute. repeat split. discriminate. Qed.

(** C6, amended. The mode field holds the value the last mode-setting
    call shifts into bits 3-4 and nothing of an earlier mode: for every
    prior buffer, whatever byte 1 was, the mode field is 1 after [pixel],
    2 after [display], 3 after [print] (of a text that passes the length
    check) and 1 after [fillScreen] - for [fillScreen] the same value as
    [pixel], not a fill value 0. *)
Theorem mode_field_exclusive
    (s : state) (x y picIndex c : Z) (text : pystr) :
  panel_ok s -> (length text <= 50)%nat ->
  mode_of (after (Panel.pixel x y c) s) = Some 0x01 /\
  mode_of (after (Panel.display picIndex c) s) = Some 0x02 /\
  mode_of (after (Panel.print text c) s) = Some 0x03 /\
  mode_of (after (Panel.fillScreen c) s) = Some 0x01.
Proof.
  intros Hok Hlen.
  destruct (panel_ok_byte s 1 Hok ltac:(lia)) as (b1 & Hb1 & Hb).
  pose proof (byte1_after_pixel s x y c b1 Hok Hb1) as Hpixel.
  pose proof (byte1_after_display s picIndex c b1 Hok Hb1) as Hdisplay.
  pose proof (byte1_after_print s text c b1 Hok Hb1 Hlen) as Hprint.
  pose proof (byte1_after_fillScreen s c Hok) as Hfill.
  destruct (masked_mode b1 1 Hb ltac:(lia)) as (_ & Hm1 & _).
  destruct (masked_mode b1 2 Hb ltac:(lia)) as (_ & Hm2 & _).
  destruct (masked_mode b1 3 Hb ltac:(lia)) as (_ & Hm3 & _).
  unfold holds in *. unfold mode_of.
  rewrite Hpixel, Hdisplay, Hprint, Hfill. cbn [fmap option_fmap option_map].
  rewrite Hm1, Hm2, Hm3. repeat split.
Qed.

Lemma mode_field_exclusive_witness :
  let s := after (Panel.print (str "Hello World") Panel.WHITE) (Panel.__init__ true 0x10) in
  mode_of s = Some 0x03 /\
  mode_of (after (Panel.pixel 3 5 Panel.RED) s) = Some 0x01 /\
  mode_of (after (Panel.display 4 Panel.RED) s) = Some 0x02 /\
  mode_of (after (Panel.print (str "Hi") Panel.RED) s) = Some 0x03 /\
  mode_of (after (Panel.fillScreen Panel.RED) s) = Some 0x01.
Proof.
  split; [reflexivity|].
  apply (mode_field_exclusive
           (after (Panel.print (str "Hello World") Panel.WHITE) (Panel.__init__ true 0x10))
           3 5 4 Panel.RED (str "Hi")).
  - closed_panel_ok.
  - vm_compute. lia.
Defined.

(** ** Counting flushes *)

Lemma flushes_after_stores (s : state) (b : list Z) :
  flushes s (auto_shown (set_buffer b s)) = if _auto_write s then 1 else 0.
Proof.
  rewrite flushes_auto_shown. unfold flushes. cbn [i2c_bus set_buffer _auto_write]. lia.
Qed.

(** X16. On byte arguments and a text of at most 11 characters, each of
    [pixel], [print], [fillScreen], [clear], [display] and [scroll] (with
    [None], [Left] or [Right]) flushes exactly once with auto-flush on and
    not at all with it off. *)
Lemma returning_calls_flush
    (s : state) (x y picIndex c : Z) (text : pystr) :
  panel_ok s -> is_byte x -> is_byte y -> is_byte picIndex -> is_byte c ->
  (length text <= 11)%nat -> Forall is_byte text ->
  let n := if _auto_write s then 1 else 0 in
  flushes s (after (Panel.pixel x y c) s) = n /\
  flushes s (after (Panel.print text c) s) = n /\
  flushes s (after (Panel.fillScreen c) s) = n /\
  flushes s (after Panel.clear s) = n /\
  flushes s (after (Panel.display picIndex c) s) = n /\
  flushes s (after (Panel.scroll PyNone) s) = n /\
  flushes s (after (Panel.scroll (PyInt Panel.Left)) s) = n /\
  flushes s (after (Panel.scroll (PyInt Panel.Right)) s) = n.
Proof.
  intros Hok Hx Hy Hp Hc Hlen Htext n.
  destruct (panel_ok_byte s 1 Hok ltac:(lia)) as (b1 & Hb1 & Hb).
  unfold after.
  rewrite (pixel_eq s x y c b1), (print_eq s text c b1), (fillScreen_eq s c),
    (clear_eq s), (display_eq s picIndex c b1), (scroll_None_eq s b1),
    (scroll_Left_eq s b1), (scroll_Right_eq s b1) by assumption.
  cbn [fst]. rewrite !flushes_after_stores. repeat split.
Qed.

(** A text of 12 to 50 characters passes the length check, overruns the
    buffer and never reaches the flush, auto-flush or not. *)
Lemma print_overflow_no_flush (s : state) (text : pystr) (c : Z) :
  panel_ok s -> (11 < length text <= 50)%nat -> ascii_text text -> 0 <= c <= 7 ->
  result (Panel.print text c) s = Raise IndexError /\
  flushes s (after (Panel.print text c) s) = 0.
Proof.
  intros Hok Hlen Htext Hc.
  destruct (print_overflow s text c Hok) as (s' & Hrun & Hbus).
  - unfold Panel.SIZE. exact Hlen.
  - eapply Forall_impl; [exact Htext|]. unfold is_byte. intros ch Hch. cbv beta in Hch. lia.
  - unfold is_byte. lia.
  - unfold result, after, flushes. rewrite Hrun. cbn [fst snd]. rewrite Hbus.
    split; [reflexivity | lia].
Qed.

(** C7. With auto-flush on, [print] of a 12-character ASCII text on a
    fresh driver: the call is valid (12 <= 50) and yet nothing is written
    to the bus, because the call raises [IndexError] before it reaches the
    flush. *)
Theorem autoflush_print_12_chars_no_flush :
  let s := Panel.__init__ true 0x10 in
  let text := str "Hello World!" in
  _auto_write s = true /\
  (length text <= Panel.SIZE)%nat /\
  result (Panel.print text Panel.RED) s = Raise IndexError /\
  i2c_bus (after (Panel.print text Panel.RED) s) = [] /\
  flushes s (after (Panel.print text Panel.RED) s) = 0.
Proof.
  cbv zeta. split; [reflexivity|]. split; [vm_compute; lia|].
  vm_compute. repeat split.
Qed.

(** C8. For every prior buffer and every colour [c] that is a byte,
    [fillScreen(c)] returns with byte 3 and byte 4 equal to zero. *)
Theorem fillScreen_zeroes_coordinates (s : state) (c : Z) :
  panel_ok s -> 0 <= c <= 255 ->
  let s' := after (Panel.fillScreen c) s in
  result (Panel.fillScreen c) s = Return tt /\
  _buffer s' !! 3%nat = Some 0 /\
  _buffer s' !! 4%nat = Some 0.
Proof.
  intros Hok Hc s'. subst s'. unfold result, after.
  rewrite fillScreen_eq by (first [exact Hok | unfold is_byte; lia]).
  cbn [fst snd]. rewrite buffer_auto_shown, buffer_set_buffer.
  pose proof (ok_length s Hok) as Hlen.
  split; [reflexivity|]. split; buffer_lookup.
Qed.

Lemma fillScreen_zeroes_coordinates_witness :
  let s := after (Panel.pixel 3 5 Panel.RED) (Panel.__init__ true 0x10) in
  let s' := after (Panel.fillScreen Panel.GREEN) s in
  (_buffer s !! 3%nat = Some 3 /\ _buffer s !! 4%nat = Some 5) /\
  result (Panel.fillScreen Panel.GREEN) s = Return tt /\
  _buffer s' !! 3%nat = Some 0 /\
  _buffer s' !! 4%nat = Some 0.
Proof.
  split; [split; reflexivity|].
  apply (fillScreen_zeroes_coordinates
           (after (Panel.pixel 3 5 Panel.RED) (Panel.__init__ true 0x10)) Panel.GREEN).
  - closed_panel_ok.
  - unfold Panel.GREEN. lia.
Defined.

(** C9. [clear()] is idempotent on the buffer: for every prior buffer,
    two calls in a row leave the bytes that one call leaves. *)
Theorem clear_idempotent (s : state) :
  panel_ok s ->
  result Panel.clear s = Return tt /\
  result Panel.clear (after Panel.clear s) = Return tt /\
  _buffer (after Panel.clear (after Panel.clear s)) = _buffer (after Panel.clear s).
Proof.
  intros Hok. pose proof (panel_ok_clear s Hok) as Hok'.
  pose proof (clear_eq s Hok) as Hfirst.
  pose proof (clear_eq (after Panel.clear s) Hok') as Hsecond.
  assert (Hs1 : _buffer (after Panel.clear s) =
                <[2%nat:=0x0]> (<[1%nat:=0x01]> (<[0%nat:=Panel.write_reg]> (_buffer s)))).
  { unfold after. rewrite Hfirst. cbn [fst].
    rewrite buffer_auto_shown, buffer_set_buffer. reflexivity. }
  remember (after Panel.clear s) as s1 eqn:Heqs1.
  unfold result, after. rewrite Hfirst, Hsecond. cbn [fst snd].
  rewrite buffer_auto_shown, buffer_set_buffer, Hs1.
  split; [reflexivity|]. split; [reflexivity|].
  pose proof (ok_length s Hok) as Hlen.
  destruct (_buffer s) as [|b0 [|b1 [|b2 rest]]]; try discriminate Hlen.
  reflexivity.
Qed.

Lemma clear_idempotent_witness :
  let s := after (Panel.print (str "Hello World") Panel.WHITE) (Panel.__init__ true 0x10) in
  result Panel.clear s = Return tt /\
  result Panel.clear (after Panel.clear s) = Return tt /\
  _buffer (after Panel.clear (after Panel.clear s)) = _buffer (after Panel.clear s).
Proof.
  apply (clear_idempotent
           (after (Panel.print (str "Hello World") Panel.WHITE) (Panel.__init__ true 0x10))).
  closed_panel_ok.
Defined.

(** C10. [pixel], [print] (of a text that passes the length check) and
    [display] switch the clear flag off: their byte-1 mask [0xe6] drops
    bit 0 together with the mode field, so for every prior buffer bit 0 of
    byte 1 is 0 after the call. *)
Theorem mask_clears_clear_flag
    (s : state) (x y picIndex c : Z) (text : pystr) :
  panel_ok s -> (length text <= 50)%nat ->
  clear_flag_of (after (Panel.pixel x y c) s) = Some false /\
  clear_flag_of (after (Panel.print text c) s) = Some false /\
  clear_flag_of (after (Panel.display picIndex c) s) = Some false.
Proof.
  intros Hok Hlen.
  destruct (panel_ok_byte s 1 Hok ltac:(lia)) as (b1 & Hb1 & Hb).
  pose proof (byte1_after_pixel s x y c b1 Hok Hb1) as Hpixel.
  pose proof (byte1_after_display s picIndex c b1 Hok Hb1) as Hdisplay.
  pose proof (byte1_after_print s text c b1 Hok Hb1 Hlen) as Hprint.
  destruct (masked_mode b1 1 Hb ltac:(lia)) as (_ & _ & Hf1).
  destruct (masked_mode b1 2 Hb ltac:(lia)) as (_ & _ & Hf2).
  destruct (masked_mode b1 3 Hb ltac:(lia)) as (_ & _ & Hf3).
  unfold holds in *. unfold clear_flag_of.
  rewrite Hpixel, Hdisplay, Hprint. cbn [fmap option_fmap option_map].
  rewrite Hf1, Hf2, Hf3. repeat split.
Qed.

Lemma mask_clears_clear_flag_witness :
  let s := after Panel.clear (Panel.__init__ true 0x10) in
  clear_flag_of s = Some true /\
  clear_flag_of (after (Panel.pixel 3 5 Panel.RED) s) = Some false /\
  clear_flag_of (after (Panel.print (str "Hello World") Panel.RED) s) = Some false /\
  clear_flag_of (after (Panel.display 4 Panel.RED) s) = Some false.
Proof.
  split; [reflexivity|].
  apply (mask_clears_clear_flag
           (after Panel.clear (Panel.__init__ true 0x10))
           3 5 4 Panel.RED (str "Hello World")).
  - closed_panel_ok.
  - vm_compute. lia.
Defined.

(** * Further properties of the driver *)

(** ** The driver and the bus log stay well formed *)

Lemma driver_ok_setitem (addr : Z) (i : nat) (v : Z) :
  preserves (driver_ok addr) (setitem i v).
Proof.
  intros s Hok. unfold after, setitem.
  destruct (Nat.ltb_spec i (length (_buffer s))) as [Hi|_]; [|exact Hok].
  destruct (Z.leb_spec 0 v) as [H0|_]; [|exact Hok].
  destruct (Z.ltb_spec v 256) as [H1|_]; [|exact Hok].
  destruct Hok as ([Hdev Hsize Hlen Hbytes] & Haddr & Hframes).
  cbn [andb fst]. split; [|split; assumption].
  split; cbn [set_buffer i2c_device _RGBAddress _buffer_size _buffer]; try assumption.
  - rewrite length_insert. exact Hlen.
  - apply Forall_insert; [exact Hbytes | split; assumption].
Qed.

Lemma driver_ok_getitem (addr : Z) (i : nat) : preserves (driver_ok addr) (getitem i).
Proof. intros s Hok. unfold after, getitem. destruct (_buffer s !! i); exact Hok. Qed.

Lemma driver_ok_py_print (addr : Z) (line : string) :
  preserves (driver_ok addr) (py_print line).
Proof.
  intros s ([Hdev Hsize Hlen Hbytes] & Haddr & Hframes).
  split; [split; assumption | split; assumption].
Qed.

Lemma driver_ok_shown (addr : Z) (s : state) : driver_ok addr s -> driver_ok addr (shown s).
Proof.
  intros ([Hdev Hsize Hlen Hbytes] & Haddr & Hframes).
  split; [split; assumption|]. split; [exact Haddr|].
  unfold frames_ok, shown. cbn [i2c_bus push_frame].
  apply Forall_app. split; [exact Hframes|].
  constructor; [|constructor]. split; assumption.
Qed.

Lemma driver_ok_show (addr : Z) : preserves (driver_ok addr) Panel.show.
Proof.
  intros s Hok. unfold after.
  rewrite show_one_device.
  - apply driver_ok_shown. exact Hok.
  - apply Hok.
  - destruct Hok as ([Hdev Hsize Hlen Hbytes] & _). congruence.
Qed.

Lemma driver_ok_flush_if_auto (addr : Z) : preserves (driver_ok addr) Panel.flush_if_auto.
Proof.
  intros s Hok. unfold after, Panel.flush_if_auto. rewrite bind_eq.
  unfold get_auto_write. destruct (_auto_write s); [|exact Hok].
  apply driver_ok_show. exact Hok.
Qed.

Ltac keeps_driver :=
  repeat first
    [ apply driver_ok_flush_if_auto
    | apply driver_ok_setitem
    | apply driver_ok_getitem
    | apply driver_ok_py_print
    | apply preserves_str_getitem
    | apply preserves_ret
    | apply preserves_for; intros ?
    | apply preserves_bind; [|intros ?] ].

Lemma driver_ok_run (addr : Z) (c : call) : preserves (driver_ok addr) (run c).
Proof.
  destruct c as [value| | |direction|picIndex color|text color|x y color|color| |];
    cbn [run].
  - destruct value as [|z|b|t]; intros s Hok; try exact Hok.
    destruct Hok as ([Hdev Hsize Hlen Hbytes] & Haddr & Hframes).
    split; [split; assumption | split; assumption].
  - unfold Panel.sys_disable. keeps_driver.
  - unfold Panel.sys_enable. keeps_driver.
  - unfold Panel.scroll.
    destruct (negb (is_None direction) && negb (py_eq_int direction Panel.Right)
              && negb (py_eq_int direction Panel.Left)); [keeps_driver|].
    destruct (is_None direction); [keeps_driver|].
    destruct (py_eq_int direction Panel.Right); [keeps_driver|].
    destruct (py_eq_int direction Panel.Left); keeps_driver.
  - unfold Panel.display. keeps_driver.
  - unfold Panel.print.
    destruct (Panel.SIZE <? length text)%nat; keeps_driver.
  - unfold Panel.pixel. keeps_driver.
  - unfold Panel.fillScreen. keeps_driver.
  - unfold Panel.clear. keeps_driver.
  - apply driver_ok_show.
Qed.

Lemma driver_ok_run_all (addr : Z) (cs : list call) (s : state) :
  driver_ok addr s -> driver_ok addr (run_all cs s).
Proof.
  revert s. induction cs as [|c cs IH]; intros s Hok; cbn [run_all]; [exact Hok|].
  apply IH. apply driver_ok_run. exact Hok.
Qed.

Lemma driver_ok_init (auto_write : bool) (address : Z) :
  driver_ok address (Panel.__init__ auto_write address).
Proof.
  split; [apply panel_ok_init|]. split; [reflexivity|]. constructor.
Qed.

(** X1. Whatever calls a client makes on a freshly constructed driver,
    with whatever arguments and whether or not some of them raise, the
    command buffer stays a bytearray of 17 bytes: no call ever resizes it
    or leaves a value outside 0..255 in it. *)
Theorem buffer_never_resized (auto_write : bool) (address : Z) (cs : list call) :
  let s := run_all cs (Panel.__init__ auto_write address) in
  length (_buffer s) = 17%nat /\ Forall is_byte (_buffer s).
Proof.
  destruct (driver_ok_run_all address cs _ (driver_ok_init auto_write address))
    as ([_ _ Hlen Hbytes] & _).
  split; assumption.
Qed.

(** X2. Every frame a client ever gets onto the bus goes to the address
    the driver was constructed with and is exactly 17 bytes long. *)
Theorem frames_are_17_bytes
    (auto_write : bool) (address : Z) (cs : list call) (addr : Z) (frame : list Z) :
  In (addr, frame) (i2c_bus (run_all cs (Panel.__init__ auto_write address))) ->
  addr = address /\ length frame = 17%nat.
Proof.
  intros Hin.
  destruct (driver_ok_run_all address cs _ (driver_ok_init auto_write address))
    as (_ & _ & Hframes).
  unfold frames_ok in Hframes. rewrite Forall_forall in Hframes.
  apply (Hframes (addr, frame)). apply list_elem_of_In. exact Hin.
Qed.

Lemma frames_are_17_bytes_witness :
  let cs := [Pixel 3 5 Panel.RED; Print (str "Hello World!") Panel.WHITE; Clear] in
  i2c_bus (run_all cs (Panel.__init__ true 0x10)) =
    [(0x10, [2; 8; 1; 3; 5; 0; 0; 0; 0; 0; 0; 0; 0; 0; 0; 0; 0]);
     (0x10, [2; 1; 0; 3; 5; 0; 72; 101; 108; 108; 111; 32; 87; 111; 114; 108; 100])] /\
  (0x10 = 0x10 /\ length [2; 8; 1; 3; 5; 0; 0; 0; 0; 0; 0; 0; 0; 0; 0; 0; 0] = 17%nat).
Proof.
  split; [reflexivity|].
  apply (frames_are_17_bytes true 0x10
           [Pixel 3 5 Panel.RED; Print (str "Hello World!") Panel.WHITE; Clear]).
  vm_compute. left. reflexivity.
Defined.

(** ** Batching with auto-flush off *)

Lemma batching_setitem (log : list (Z * list Z)) (i : nat) (v : Z) :
  preserves (batching log) (setitem i v).
Proof.
  intros s H. unfold after, setitem.
  destruct (i <? length (_buffer s))%nat; [|exact H].
  destruct ((0 <=? v) && (v <? 256)); exact H.
Qed.

Lemma batching_getitem (log : list (Z * list Z)) (i : nat) :
  preserves (batching log) (getitem i).
Proof. intros s H. unfold after, getitem. destruct (_buffer s !! i); exact H. Qed.

Lemma batching_py_print (log : list (Z * list Z)) (line : string) :
  preserves (batching log) (py_print line).
Proof. intros s H. exact H. Qed.

Lemma batching_flush_if_auto (log : list (Z * list Z)) :
  preserves (batching log) Panel.flush_if_auto.
Proof.
  intros s [Hauto Hlog]. unfold after, Panel.flush_if_auto. rewrite bind_eq.
  unfold get_auto_write. rewrite Hauto. split; assumption.
Qed.

Ltac keeps_batching :=
  repeat first
    [ apply batching_flush_if_auto
    | apply batching_setitem
    | apply batching_getitem
    | apply batching_py_print
    | apply preserves_str_getitem
    | apply preserves_ret
    | apply preserves_for; intros ?
    | apply preserves_bind; [|intros ?] ].

Lemma batching_run (log : list (Z * list Z)) (c : call) :
  is_drawing c = true -> preserves (batching log) (run c).
Proof.
  destruct c as [value| | |direction|picIndex color|text color|x y color|color| |];
    cbn [run is_drawing]; intros Hdraw; try discriminate Hdraw.
  - unfold Panel.sys_disable. keeps_batching.
  - unfold Panel.sys_enable. keeps_batching.
  - unfold Panel.scroll.
    destruct (negb (is_None direction) && negb (py_eq_int direction Panel.Right)
              && negb (py_eq_int direction Panel.Left)); [keeps_batching|].
    destruct (is_None direction); [keeps_batching|].
    destruct (py_eq_int direction Panel.Right); [keeps_batching|].
    destruct (py_eq_int direction Panel.Left); keeps_batching.
  - unfold Panel.display. keeps_batching.
  - unfold Panel.print.
    destruct (Panel.SIZE <? length text)%nat; keeps_batching.
  - unfold Panel.pixel. keeps_batching.
  - unfold Panel.fillScreen. keeps_batching.
  - unfold Panel.clear. keeps_batching.
Qed.

Lemma batching_run_all (log : list (Z * list Z)) (cs : list call) (s : state) :
  forallb is_drawing cs = true -> batching log s -> batching log (run_all cs s).
Proof.
  revert s. induction cs as [|c cs IH]; intros s Hdraw H; cbn [run_all]; [exact H|].
  cbn [forallb] in Hdraw. apply andb_prop in Hdraw as [Hc Hcs].
  apply IH; [exact Hcs|]. apply batching_run; assumption.
Qed.

(** X3. With auto-flush off, no sequence of drawing calls - valid or not,
    returning or raising - writes anything to the bus. *)
Theorem batched_calls_write_nothing (s : state) (cs : list call) :
  _auto_write s = false -> forallb is_drawing cs = true ->
  i2c_bus (run_all cs s) = i2c_bus s.
Proof.
  intros Hauto Hdraw.
  destruct (batching_run_all (i2c_bus s) cs s Hdraw) as [_ Hlog];
    [split; [exact Hauto | reflexivity] | exact Hlog].
Qed.

Lemma batched_calls_write_nothing_witness :
  let cs := [Clear; Pixel 3 5 Panel.RED; Scroll (PyInt Panel.Right);
             Print (str "Hello World!") Panel.WHITE; FillScreen Panel.BLUE] in
  i2c_bus (run_all cs (Panel.__init__ false 0x10)) = [].
Proof.
  apply (batched_calls_write_nothing (Panel.__init__ false 0x10)
           [Clear; Pixel 3 5 Panel.RED; Scroll (PyInt Panel.Right);
            Print (str "Hello World!") Panel.WHITE; FillScreen Panel.BLUE]).
  - reflexivity.
  - reflexivity.
Defined.

(** ** A well-formed driver stays well formed from any state *)

Lemma panel_at_setitem (addr : Z) (i : nat) (v : Z) :
  preserves (panel_at addr) (setitem i v).
Proof.
  intros s Hok. unfold after, setitem.
  destruct (Nat.ltb_spec i (length (_buffer s))) as [Hi|_]; [|exact Hok].
  destruct (Z.leb_spec 0 v) as [H0|_]; [|exact Hok].
  destruct (Z.ltb_spec v 256) as [H1|_]; [|exact Hok].
  destruct Hok as ([Hdev Hsize Hlen Hbytes] & Haddr).
  cbn [andb fst]. split; [|assumption].
  split; cbn [set_buffer i2c_device _RGBAddress _buffer_size _buffer]; try assumption.
  - rewrite length_insert. exact Hlen.
  - apply Forall_insert; [exact Hbytes | split; assumption].
Qed.

Lemma panel_at_getitem (addr : Z) (i : nat) : preserves (panel_at addr) (getitem i).
Proof. intros s Hok. unfold after, getitem. destruct (_buffer s !! i); exact Hok. Qed.

Lemma panel_at_py_print (addr : Z) (line : string) :
  preserves (panel_at addr) (py_print line).
Proof.
  intros s ([Hdev Hsize Hlen Hbytes] & Haddr). split; [split; assumption | assumption].
Qed.

Lemma panel_at_frame (addr : Z) (a : Z) (frame : list Z) (s : state) :
  panel_at addr s -> panel_at addr (push_frame a frame s).
Proof.
  intros ([Hdev Hsize Hlen Hbytes] & Haddr). split; [split; assumption | assumption].
Qed.

Ltac keeps_panel :=
  repeat first
    [ apply preserves_flush_if_auto; apply panel_at_frame
    | apply preserves_show; apply panel_at_frame
    | apply panel_at_setitem
    | apply panel_at_getitem
    | apply panel_at_py_print
    | apply preserves_str_getitem
    | apply preserves_ret
    | apply preserves_for; intros ?
    | apply preserves_bind; [|intros ?] ].

Lemma panel_at_run (addr : Z) (c : call) : preserves (panel_at addr) (run c).
Proof.
  destruct c as [value| | |direction|picIndex color|text color|x y color|color| |];
    cbn [run].
  - destruct value as [|z|b|t]; intros s Hok; try exact Hok.
    destruct Hok as ([Hdev Hsize Hlen Hbytes] & Haddr).
    split; [split; assumption | assumption].
  - unfold Panel.sys_disable. keeps_panel.
  - unfold Panel.sys_enable. keeps_panel.
  - unfold Panel.scroll.
    destruct (negb (is_None direction) && negb (py_eq_int direction Panel.Right)
              && negb (py_eq_int direction Panel.Left)); [keeps_panel|].
    destruct (is_None direction); [keeps_panel|].
    destruct (py_eq_int direction Panel.Right); [keeps_panel|].
    destruct (py_eq_int direction Panel.Left); keeps_panel.
  - unfold Panel.display. keeps_panel.
  - unfold Panel.print.
    destruct (Panel.SIZE <? length text)%nat; keeps_panel.
  - unfold Panel.pixel. keeps_panel.
  - unfold Panel.fillScreen. keeps_panel.
  - unfold Panel.clear. keeps_panel.
  - keeps_panel.
Qed.

Lemma panel_at_run_all (addr : Z) (cs : list call) (s : state) :
  panel_at addr s -> panel_at addr (run_all cs s).
Proof.
  revert s. induction cs as [|c cs IH]; intros s Hok; cbn [run_all]; [exact Hok|].
  apply IH. apply panel_at_run. exact Hok.
Qed.

Lemma panel_ok_after (s : state) (c : call) : panel_ok s -> panel_ok (after (run c) s).
Proof.
  intros Hok. apply (panel_at_run (_RGBAddress s) c s). split; [exact Hok | reflexivity].
Qed.

(** X4. With auto-flush off, the [show] that follows a batch of drawing
    calls returns and puts exactly one frame on the bus: the whole command
    buffer as the batch left it, sent to the driver's address. *)
Theorem show_after_batch (s : state) (cs : list call) :
  panel_ok s -> _auto_write s = false -> forallb is_drawing cs = true ->
  let s1 := run_all cs s in
  result Panel.show s1 = Return tt /\
  i2c_bus (after Panel.show s1) = i2c_bus s ++ [(_RGBAddress s, _buffer s1)] /\
  _buffer (after Panel.show s1) = _buffer s1.
Proof.
  intros Hok Hauto Hdraw s1.
  destruct (panel_at_run_all (_RGBAddress s) cs s) as ([Hdev Hsize Hlen Hbytes] & Haddr);
    [split; [exact Hok | reflexivity]|].
  destruct (batching_run_all (i2c_bus s) cs s Hdraw) as [_ Hlog];
    [split; [exact Hauto | reflexivity]|].
  fold s1 in Hdev, Hsize, Hlen, Hbytes, Haddr, Hlog.
  unfold result, after. rewrite show_one_device by congruence.
  cbn [fst snd]. unfold shown. cbn [i2c_bus _buffer push_frame].
  rewrite Hlog, Haddr. repeat split.
Qed.

Lemma show_after_batch_witness :
  let s := Panel.__init__ false 0x10 in
  let s1 := run_all [Pixel 3 5 Panel.RED] s in
  result Panel.show s1 = Return tt /\
  i2c_bus (after Panel.show s1) = i2c_bus s ++ [(_RGBAddress s, _buffer s1)] /\
  _buffer (after Panel.show s1) = _buffer s1.
Proof.
  apply (show_after_batch (Panel.__init__ false 0x10) [Pixel 3 5 Panel.RED]).
  - closed_panel_ok.
  - reflexivity.
  - reflexivity.
Defined.

(** ** The other encoders *)

(** X5. For every prior buffer, every picture index and every colour that
    are bytes, [display(picIndex, color)] returns with byte 0 equal to the
    write register, the mode field equal to 2, byte 2 equal to the colour
    and byte 4 - the byte [pixel] uses for y - equal to the picture index;
    byte 3 and every byte from byte 5 on are as they were. *)
Theorem display_encodes (s : state) (picIndex color : Z) :
  panel_ok s -> 0 <= picIndex <= 255 -> 0 <= color <= 255 ->
  let s' := after (Panel.display picIndex color) s in
  result (Panel.display picIndex color) s = Return tt /\
  _buffer s' !! 0%nat = Some Panel.write_reg /\
  mode_of s' = Some 2 /\
  _buffer s' !! 2%nat = Some color /\
  _buffer s' !! 4%nat = Some picIndex /\
  _buffer s' !! 3%nat = _buffer s !! 3%nat /\
  forall i, (5 <= i)%nat -> _buffer s' !! i = _buffer s !! i.
Proof.
  intros Hok Hp Hc s'.
  destruct (panel_ok_byte s 1 Hok ltac:(lia)) as (b1 & Hb1 & Hb).
  destruct (masked_mode b1 2 Hb ltac:(lia)) as (_ & Hmode & _).
  assert (Hrun := display_eq s picIndex color b1 Hok Hb1
                    ltac:(unfold is_byte; lia) ltac:(unfold is_byte; lia)).
  subst s'. unfold result, after, mode_of. rewrite Hrun. cbn [fst snd].
  rewrite buffer_auto_shown, buffer_set_buffer.
  pose proof (ok_length s Hok) as Hlen.
  split; [reflexivity|].
  split; [buffer_lookup|].
  split; [buffer_lookup; cbn [fmap option_fmap option_map]; rewrite Hmode; reflexivity|].
  split; [buffer_lookup|].
  split; [buffer_lookup|].
  split; [buffer_lookup|].
  intros i Hi. buffer_lookup.
Qed.

Lemma display_encodes_witness :
  let s := after (Panel.pixel 3 5 Panel.RED) (Panel.__init__ true 0x10) in
  let s' := after (Panel.display 4 Panel.CYAN) s in
  result (Panel.display 4 Panel.CYAN) s = Return tt /\
  _buffer s' !! 0%nat = Some Panel.write_reg /\
  mode_of s' = Some 2 /\
  _buffer s' !! 2%nat = Some Panel.CYAN /\
  _buffer s' !! 4%nat = Some 4 /\
  _buffer s' !! 3%nat = _buffer s !! 3%nat /\
  forall i, (5 <= i)%nat -> _buffer s' !! i = _buffer s !! i.
Proof.
  apply (display_encodes
           (after (Panel.pixel 3 5 Panel.RED) (Panel.__init__ true 0x10)) 4 Panel.CYAN).
  - closed_panel_ok.
  - lia.
  - unfold Panel.CYAN. lia.
Defined.

Lemma sys_disable_eq (s : state) :
  panel_ok s ->
  Panel.sys_disable s =
  (auto_shown
     (set_buffer
        (<[3%nat:=0x0]> (<[2%nat:=0x0]> (<[1%nat:=0x0]>
           (<[0%nat:=Panel.write_reg]> (_buffer s))))) s),
   Return tt).
Proof.
  intros [Hdev Hsize Hlen Hbytes].
  unfold Panel.sys_disable. repeat step. finish_flush.
Qed.

Lemma sys_enable_eq (s : state) :
  panel_ok s ->
  Panel.sys_enable s =
  (auto_shown
     (set_buffer
        (<[3%nat:=0x0]> (<[2%nat:=0x1]> (<[1%nat:=0x0]>
           (<[0%nat:=Panel.write_reg]> (_buffer s))))) s),
   Return tt).
Proof.
  intros [Hdev Hsize Hlen Hbytes].
  unfold Panel.sys_enable. repeat step. finish_flush.
Qed.

(** X6. [sys_disable] and [sys_enable] return with the first four bytes
    of the buffer equal to 2, 0, 0, 0 and 2, 0, 1, 0: they wipe the whole
    control byte (mode, scroll and clear bits) and the x byte, differ in
    byte 2 alone, and leave every byte from byte 4 on as it was; each
    flushes once with auto-flush on and not at all with it off. *)
Theorem sys_power_encodes (s : state) :
  panel_ok s ->
  let off := after Panel.sys_disable s in
  let on := after Panel.sys_enable s in
  result Panel.sys_disable s = Return tt /\
  result Panel.sys_enable s = Return tt /\
  take 4 (_buffer off) = [Panel.write_reg; 0; 0; 0] /\
  take 4 (_buffer on) = [Panel.write_reg; 0; 1; 0] /\
  drop 4 (_buffer off) = drop 4 (_buffer s) /\
  drop 4 (_buffer on) = drop 4 (_buffer s) /\
  flushes s off = (if _auto_write s then 1 else 0) /\
  flushes s on = (if _auto_write s then 1 else 0).
Proof.
  intros Hok off on. subst off on. unfold result, after.
  rewrite (sys_disable_eq s Hok), (sys_enable_eq s Hok). cbn [fst snd].
  rewrite !flushes_after_stores, !buffer_auto_shown, !buffer_set_buffer.
  pose proof (ok_length s Hok) as Hlen.
  destruct (_buffer s) as [|b0 [|b1 [|b2 [|b3 rest]]]]; try discriminate Hlen.
  repeat split.
Qed.

Lemma sys_power_encodes_witness :
  let s := after (Panel.print (str "Hello World") Panel.WHITE) (Panel.__init__ true 0x10) in
  let off := after Panel.sys_disable s in
  let on := after Panel.sys_enable s in
  result Panel.sys_disable s = Return tt /\
  result Panel.sys_enable s = Return tt /\
  take 4 (_buffer off) = [Panel.write_reg; 0; 0; 0] /\
  take 4 (_buffer on) = [Panel.write_reg; 0; 1; 0] /\
  drop 4 (_buffer off) = drop 4 (_buffer s) /\
  drop 4 (_buffer on) = drop 4 (_buffer s) /\
  flushes s off = (if _auto_write s then 1 else 0) /\
  flushes s on = (if _auto_write s then 1 else 0).
Proof.
  apply (sys_power_encodes
           (after (Panel.print (str "Hello World") Panel.WHITE) (Panel.__init__ true 0x10))).
  closed_panel_ok.
Defined.

(** ** The scroll bits *)

Lemma scroll_None_bits (b n : Z) :
  Z.testbit (Z.land b (Z.lnot (Z.shiftl 0x01 2))) n = Z.testbit b n && negb (n =? 2).
Proof.
  destruct (Z.neg_nonneg_cases n) as [Hneg|Hpos].
  - rewrite !Z.testbit_neg_r by exact Hneg. reflexivity.
  - rewrite Z.land_spec, Z.lnot_spec by exact Hpos.
    change (Z.shiftl 0x01 2) with (2 ^ 2).
    rewrite Z.pow2_bits_eqb by lia. rewrite (Z.eqb_sym 2 n). reflexivity.
Qed.

Lemma scroll_Right_bits (b n : Z) :
  Z.testbit (Z.lor b (Z.lor (Z.shiftl 0x01 2) (Z.shiftl 0x01 1))) n =
  Z.testbit b n || (n =? 2) || (n =? 1).
Proof.
  rewrite !Z.lor_spec.
  change (Z.shiftl 0x01 2) with (2 ^ 2). change (Z.shiftl 0x01 1) with (2 ^ 1).
  destruct (Z.neg_nonneg_cases n) as [Hneg|Hpos].
  - rewrite !Z.testbit_neg_r by exact Hneg.
    destruct (Z.eqb_spec n 2); [lia|]. destruct (Z.eqb_spec n 1); [lia|]. reflexivity.
  - rewrite !Z.pow2_bits_eqb by lia. rewrite (Z.eqb_sym 2 n), (Z.eqb_sym 1 n).
    rewrite orb_assoc. reflexivity.
Qed.

Lemma scroll_Left_bits (b n : Z) :
  Z.testbit (Z.lor b (Z.land (Z.shiftl 0x01 2) (Z.lnot (Z.shiftl 0x01 1)))) n =
  Z.testbit b n || (n =? 2).
Proof.
  rewrite scroll_Left_mask, Z.lor_spec. change Panel.SCROLL with (2 ^ 2).
  destruct (Z.neg_nonneg_cases n) as [Hneg|Hpos].
  - rewrite !Z.testbit_neg_r by exact Hneg.
    destruct (Z.eqb_spec n 2); [lia|]. reflexivity.
  - rewrite Z.pow2_bits_eqb by lia. rewrite (Z.eqb_sym 2 n). reflexivity.
Qed.

(** X7. [scroll] changes byte 1 and nothing else, and in byte 1 only its
    own bits: [scroll(None)] switches bit 2 off, [scroll(Panel.Right)]
    switches bits 2 and 1 on, [scroll(Panel.Left)] switches bit 2 on; every
    other bit of byte 1 - for [Left] this includes the direction bit - and
    every other byte, byte 0 included, keep their values. *)
Theorem scroll_touches_its_bits_only (s : state) (b1 : Z) :
  panel_ok s -> _buffer s !! 1%nat = Some b1 ->
  let buffer_after d := _buffer (after (Panel.scroll d) s) in
  (exists v, buffer_after PyNone = <[1%nat:=v]> (_buffer s) /\
             forall n, Z.testbit v n = Z.testbit b1 n && negb (n =? 2)) /\
  (exists v, buffer_after (PyInt Panel.Right) = <[1%nat:=v]> (_buffer s) /\
             forall n, Z.testbit v n = Z.testbit b1 n || (n =? 2) || (n =? 1)) /\
  (exists v, buffer_after (PyInt Panel.Left) = <[1%nat:=v]> (_buffer s) /\
             forall n, Z.testbit v n = Z.testbit b1 n || (n =? 2)).
Proof.
  intros Hok Hb1 buffer_after. subst buffer_after. cbv beta. unfold after.
  rewrite (scroll_None_eq s b1 Hok Hb1), (scroll_Right_eq s b1 Hok Hb1),
    (scroll_Left_eq s b1 Hok Hb1).
  cbn [fst]. rewrite !buffer_auto_shown, !buffer_set_buffer.
  split; [|split]; eexists; (split; [reflexivity|]); intros n.
  - apply scroll_None_bits.
  - apply scroll_Right_bits.
  - apply scroll_Left_bits.
Qed.

Lemma scroll_touches_its_bits_only_witness :
  let s := after (Panel.print (str "Hello World") Panel.WHITE) (Panel.__init__ true 0x10) in
  let buffer_after d := _buffer (after (Panel.scroll d) s) in
  (exists v, buffer_after PyNone = <[1%nat:=v]> (_buffer s) /\
             forall n, Z.testbit v n = Z.testbit 24 n && negb (n =? 2)) /\
  (exists v, buffer_after (PyInt Panel.Right) = <[1%nat:=v]> (_buffer s) /\
             forall n, Z.testbit v n = Z.testbit 24 n || (n =? 2) || (n =? 1)) /\
  (exists v, buffer_after (PyInt Panel.Left) = <[1%nat:=v]> (_buffer s) /\
             forall n, Z.testbit v n = Z.testbit 24 n || (n =? 2)).
Proof.
  apply (scroll_touches_its_bits_only
           (after (Panel.print (str "Hello World") Panel.WHITE) (Panel.__init__ true 0x10))
           24).
  - closed_panel_ok.
  - reflexivity.
Defined.

Lemma scroll_Left_absorbed (b : Z) :
  Z.lor (Z.lor b (Z.lor (Z.shiftl 0x01 2) (Z.shiftl 0x01 1)))
        (Z.land (Z.shiftl 0x01 2) (Z.lnot (Z.shiftl 0x01 1))) =
  Z.lor b (Z.lor (Z.shiftl 0x01 2) (Z.shiftl 0x01 1)).
Proof.
  apply Z.bits_inj'. intros n _.
  rewrite scroll_Left_bits, scroll_Right_bits.
  destruct (Z.testbit b n), (n =? 2), (n =? 1); reflexivity.
Qed.

(** X8. Once [scroll(Panel.Right)] has been called, [scroll(Panel.Left)]
    changes nothing in the buffer: the panel keeps scrolling right. *)
Theorem scroll_Left_cannot_undo_Right (s : state) :
  panel_ok s ->
  let s1 := after (Panel.scroll (PyInt Panel.Right)) s in
  let s2 := after (Panel.scroll (PyInt Panel.Left)) s1 in
  result (Panel.scroll (PyInt Panel.Left)) s1 = Return tt /\
  _buffer s2 = _buffer s1 /\
  scroll_bits_of s2 = Some (true, true).
Proof.
  intros Hok s1 s2.
  destruct (panel_ok_byte s 1 Hok ltac:(lia)) as (b1 & Hb1 & Hb).
  pose proof (ok_length s Hok) as Hlen.
  assert (Hok1 : panel_ok s1) by exact (panel_ok_after s (Scroll (PyInt Panel.Right)) Hok).
  assert (Hbuf1 : _buffer s1 =
            <[1%nat:=Z.lor b1 (Z.lor (Z.shiftl 0x01 2) (Z.shiftl 0x01 1))]> (_buffer s)).
  { subst s1. unfold after. rewrite (scroll_Right_eq s b1 Hok Hb1). cbn [fst].
    rewrite buffer_auto_shown, buffer_set_buffer. reflexivity. }
  assert (Hv1 : _buffer s1 !! 1%nat =
                Some (Z.lor b1 (Z.lor (Z.shiftl 0x01 2) (Z.shiftl 0x01 1)))).
  { rewrite Hbuf1. apply list_lookup_insert_eq. lia. }
  assert (Hbuf2 : _buffer s2 = _buffer s1).
  { subst s2. unfold after. rewrite (scroll_Left_eq s1 _ Hok1 Hv1). cbn [fst].
    rewrite buffer_auto_shown, buffer_set_buffer, scroll_Left_absorbed.
    rewrite Hbuf1. apply list_insert_insert_eq. }
  split; [|split].
  - unfold result. rewrite (scroll_Left_eq s1 _ Hok1 Hv1). reflexivity.
  - exact Hbuf2.
  - unfold scroll_bits_of. rewrite Hbuf2, Hv1. cbn [fmap option_fmap option_map].
    unfold scroll_enable, scroll_direction. rewrite !scroll_Right_bits.
    cbn. rewrite !orb_true_r. reflexivity.
Qed.

Lemma scroll_Left_cannot_undo_Right_witness :
  let s := after (Panel.pixel 3 5 Panel.RED) (Panel.__init__ true 0x10) in
  let s1 := after (Panel.scroll (PyInt Panel.Right)) s in
  let s2 := after (Panel.scroll (PyInt Panel.Left)) s1 in
  result (Panel.scroll (PyInt Panel.Left)) s1 = Return tt /\
  _buffer s2 = _buffer s1 /\
  scroll_bits_of s2 = Some (true, true).
Proof.
  apply (scroll_Left_cannot_undo_Right
           (after (Panel.pixel 3 5 Panel.RED) (Panel.__init__ true 0x10))).
  closed_panel_ok.
Defined.

Lemma masked_keeps_scroll (b m : Z) :
  let v := Z.lor (Z.land b 0xe6) (Z.shiftl m 3) in
  scroll_enable v = scroll_enable b /\ scroll_direction v = scroll_direction b.
Proof.
  cbv zeta. unfold scroll_enable, scroll_direction.
  rewrite !Z.lor_spec, !Z.land_spec, !Z.shiftl_spec_low by lia.
  change (Z.testbit 0xe6 2) with true. change (Z.testbit 0xe6 1) with true.
  rewrite !orb_false_r, !andb_true_r. split; reflexivity.
Qed.

(** X9. [pixel], [display] and [print] (of a text that passes the length
    check) keep the scroll settings: for every prior buffer and whatever
    the other arguments, the scroll-enable and scroll-direction bits of
    byte 1 are after the call what they were before. *)
Theorem mode_calls_keep_scroll
    (s : state) (x y picIndex c : Z) (text : pystr) :
  panel_ok s -> (length text <= 50)%nat ->
  scroll_bits_of (after (Panel.pixel x y c) s) = scroll_bits_of s /\
  scroll_bits_of (after (Panel.display picIndex c) s) = scroll_bits_of s /\
  scroll_bits_of (after (Panel.print text c) s) = scroll_bits_of s.
Proof.
  intros Hok Hlen.
  destruct (panel_ok_byte s 1 Hok ltac:(lia)) as (b1 & Hb1 & Hb).
  pose proof (byte1_after_pixel s x y c b1 Hok Hb1) as Hpixel.
  pose proof (byte1_after_display s picIndex c b1 Hok Hb1) as Hdisplay.
  pose proof (byte1_after_print s text c b1 Hok Hb1 Hlen) as Hprint.
  destruct (masked_keeps_scroll b1 1) as [He1 Hd1].
  destruct (masked_keeps_scroll b1 2) as [He2 Hd2].
  destruct (masked_keeps_scroll b1 3) as [He3 Hd3].
  unfold holds in *. unfold scroll_bits_of.
  rewrite Hpixel, Hdisplay, Hprint, Hb1. cbn [fmap option_fmap option_map].
  rewrite He1, Hd1, He2, Hd2, He3, Hd3. repeat split.
Qed.

Lemma mode_calls_keep_scroll_witness :
  let s := after (Panel.scroll (PyInt Panel.Right)) (Panel.__init__ true 0x10) in
  scroll_bits_of s = Some (true, true) /\
  scroll_bits_of (after (Panel.pixel 3 5 Panel.RED) s) = scroll_bits_of s /\
  scroll_bits_of (after (Panel.display 4 Panel.RED) s) = scroll_bits_of s /\
  scroll_bits_of (after (Panel.print (str "Hello World") Panel.RED) s) = scroll_bits_of s.
Proof.
  split; [reflexivity|].
  apply (mode_calls_keep_scroll
           (after (Panel.scroll (PyInt Panel.Right)) (Panel.__init__ true 0x10))
           3 5 4 Panel.RED (str "Hello World")).
  - closed_panel_ok.
  - vm_compute. lia.
Defined.

(** X10. [clear], [fillScreen], [sys_disable] and [sys_enable] overwrite
    byte 1 as a whole, so they stop scrolling: for every prior buffer the
    scroll-enable and scroll-direction bits are both 0 after the call. *)
Theorem reset_calls_stop_scroll (s : state) (c : Z) :
  panel_ok s ->
  scroll_bits_of (after Panel.clear s) = Some (false, false) /\
  scroll_bits_of (after (Panel.fillScreen c) s) = Some (false, false) /\
  scroll_bits_of (after Panel.sys_disable s) = Some (false, false) /\
  scroll_bits_of (after Panel.sys_enable s) = Some (false, false).
Proof.
  intros Hok. pose proof (ok_length s Hok) as Hlen.
  pose proof (byte1_after_fillScreen s c Hok) as Hfill. unfold holds in Hfill.
  unfold scroll_bits_of. rewrite Hfill. unfold after.
  rewrite (clear_eq s Hok), (sys_disable_eq s Hok), (sys_enable_eq s Hok).
  cbn [fst]. rewrite !buffer_auto_shown, !buffer_set_buffer.
  destruct (_buffer s) as [|b0 [|b1 rest]]; try discriminate Hlen.
  repeat split.
Qed.

Lemma reset_calls_stop_scroll_witness :
  let s := after (Panel.scroll (PyInt Panel.Right)) (Panel.__init__ true 0x10) in
  scroll_bits_of s = Some (true, true) /\
  scroll_bits_of (after Panel.clear s) = Some (false, false) /\
  scroll_bits_of (after (Panel.fillScreen Panel.RED) s) = Some (false, false) /\
  scroll_bits_of (after Panel.sys_disable s) = Some (false, false) /\
  scroll_bits_of (after Panel.sys_enable s) = Some (false, false).
Proof.
  split; [reflexivity|].
  apply (reset_calls_stop_scroll
           (after (Panel.scroll (PyInt Panel.Right)) (Panel.__init__ true 0x10))
           Panel.RED).
  closed_panel_ok.
Defined.

(** X11. [clear] returns with bytes 0..2 equal to 2, 1, 0 - clear flag on,
    mode field and colour zero - and [fillScreen(c)], for a colour that is
    a byte, with bytes 0..4 equal to 2, 9, c, 0, 0; neither touches any later
    byte, so coordinates (for [clear]) and text of earlier calls stay in
    the buffer. *)
Theorem clear_fillScreen_layout (s : state) (c : Z) :
  panel_ok s -> 0 <= c <= 255 ->
  let cleared := _buffer (after Panel.clear s) in
  let filled := _buffer (after (Panel.fillScreen c) s) in
  take 3 cleared = [Panel.write_reg; 1; 0] /\
  drop 3 cleared = drop 3 (_buffer s) /\
  take 5 filled = [Panel.write_reg; 9; c; 0; 0] /\
  drop 5 filled = drop 5 (_buffer s).
Proof.
  intros Hok Hc cleared filled. subst cleared filled. unfold after.
  rewrite (clear_eq s Hok), (fillScreen_eq s c Hok ltac:(unfold is_byte; lia)).
  cbn [fst]. rewrite !buffer_auto_shown, !buffer_set_buffer.
  pose proof (ok_length s Hok) as Hlen.
  destruct (_buffer s) as [|b0 [|b1 [|b2 [|b3 [|b4 rest]]]]]; try discriminate Hlen.
  repeat split.
Qed.

Lemma clear_fillScreen_layout_witness :
  let s := after (Panel.print (str "Hello World") Panel.WHITE)
                 (after (Panel.pixel 3 5 Panel.RED) (Panel.__init__ true 0x10)) in
  let cleared := _buffer (after Panel.clear s) in
  let filled := _buffer (after (Panel.fillScreen Panel.BLUE) s) in
  take 3 cleared = [Panel.write_reg; 1; 0] /\
  drop 3 cleared = drop 3 (_buffer s) /\
  take 5 filled = [Panel.write_reg; 9; Panel.BLUE; 0; 0] /\
  drop 5 filled = drop 5 (_buffer s).
Proof.
  apply (clear_fillScreen_layout
           (after (Panel.print (str "Hello World") Panel.WHITE)
                  (after (Panel.pixel 3 5 Panel.RED) (Panel.__init__ true 0x10)))
           Panel.BLUE).
  - closed_panel_ok.
  - unfold Panel.BLUE. lia.
Defined.

(** ** One buffer, one drawing *)

Lemma mask_idempotent (b m : Z) :
  Z.lor (Z.land (Z.lor (Z.land b 0xe6) m) 0xe6) m = Z.lor (Z.land b 0xe6) m.
Proof.
  apply Z.bits_inj'. intros n _.
  rewrite !Z.lor_spec, !Z.land_spec, !Z.lor_spec, !Z.land_spec.
  destruct (Z.testbit b n), (Z.testbit 0xe6 n), (Z.testbit m n); reflexivity.
Qed.

(** X12. The buffer holds one pixel: for byte arguments, a second [pixel]
    call leaves the buffer exactly as if the first had not been made, and
    so does a [fillScreen] after a [pixel].  With auto-flush off only the
    last of several pixels reaches the panel. *)
Theorem last_pixel_wins (s : state) (x1 y1 c1 x2 y2 c2 : Z) :
  panel_ok s ->
  0 <= x1 <= 255 -> 0 <= y1 <= 255 -> 0 <= c1 <= 255 ->
  0 <= x2 <= 255 -> 0 <= y2 <= 255 -> 0 <= c2 <= 255 ->
  let s1 := after (Panel.pixel x1 y1 c1) s in
  _buffer (after (Panel.pixel x2 y2 c2) s1) = _buffer (after (Panel.pixel x2 y2 c2) s) /\
  _buffer (after (Panel.fillScreen c2) s1) = _buffer (after (Panel.fillScreen c2) s).
Proof.
  intros Hok Hx1 Hy1 Hc1 Hx2 Hy2 Hc2 s1.
  destruct (panel_ok_byte s 1 Hok ltac:(lia)) as (b1 & Hb1 & Hb).
  pose proof (ok_length s Hok) as Hlen.
  assert (Hok1 : panel_ok s1) by exact (panel_ok_after s (Pixel x1 y1 c1) Hok).
  assert (Hbuf1 : _buffer s1 =
            <[4%nat:=y1]> (<[3%nat:=x1]> (<[2%nat:=c1]>
              (<[1%nat:=Z.lor (Z.land b1 0xe6) (Z.shiftl 0x01 3)]>
                 (<[0%nat:=Panel.write_reg]> (_buffer s)))))).
  { subst s1. unfold after.
    rewrite (pixel_eq s x1 y1 c1 b1) by (first [assumption | unfold is_byte; lia]).
    cbn [fst]. rewrite buffer_auto_shown, buffer_set_buffer. reflexivity. }
  assert (Hv1 : _buffer s1 !! 1%nat = Some (Z.lor (Z.land b1 0xe6) (Z.shiftl 0x01 3))).
  { rewrite Hbuf1. buffer_lookup. }
  unfold after.
  rewrite (pixel_eq s1 x2 y2 c2 _ Hok1 Hv1),
    (pixel_eq s x2 y2 c2 b1 Hok Hb1),
    (fillScreen_eq s1 c2 Hok1), (fillScreen_eq s c2 Hok)
    by (unfold is_byte; lia).
  cbn [fst]. rewrite !buffer_auto_shown, !buffer_set_buffer.
  rewrite mask_idempotent, Hbuf1.
  destruct (_buffer s) as [|a0 [|a1 [|a2 [|a3 [|a4 rest]]]]]; try discriminate Hlen.
  split; reflexivity.
Qed.

Lemma last_pixel_wins_witness :
  let s := Panel.__init__ false 0x10 in
  let s1 := after (Panel.pixel 3 5 Panel.RED) s in
  _buffer (after (Panel.pixel 7 2 Panel.BLUE) s1) =
    _buffer (after (Panel.pixel 7 2 Panel.BLUE) s) /\
  _buffer (after (Panel.fillScreen Panel.BLUE) s1) =
    _buffer (after (Panel.fillScreen Panel.BLUE) s).
Proof.
  apply (last_pixel_wins (Panel.__init__ false 0x10) 3 5 Panel.RED 7 2 Panel.BLUE).
  - closed_panel_ok.
  - lia.
  - lia.
  - unfold Panel.RED. lia.
  - lia.
  - lia.
  - unfold Panel.BLUE. lia.
Defined.

(** ** Text in the buffer *)

Lemma ascii_text_bytes (text : pystr) : ascii_text text -> Forall is_byte text.
Proof.
  intros Htext. eapply Forall_impl; [exact Htext|].
  unfold is_byte. intros ch Hch. cbv beta in Hch. lia.
Qed.

(** Where a short [print] leaves the text bytes. *)
Lemma print_text_bytes (s : state) (text : pystr) (c : Z) (i : nat) :
  panel_ok s -> (length text <= 11)%nat -> ascii_text text -> 0 <= c <= 255 ->
  _buffer (after (Panel.print text c) s) !! (6 + i)%nat =
  if (i <? length text)%nat then text !! i else _buffer s !! (6 + i)%nat.
Proof.
  intros Hok Hshort Htext Hc.
  destruct (panel_ok_byte s 1 Hok ltac:(lia)) as (b1 & Hb1 & Hb).
  pose proof (ok_length s Hok) as Hlen.
  unfold after.
  rewrite (print_eq s text c b1 Hok Hb1 Hshort (ascii_text_bytes text Htext))
    by (unfold is_byte; lia).
  cbn [fst]. rewrite buffer_auto_shown, buffer_set_buffer.
  destruct (Nat.ltb_spec i (length text)) as [Hi|Hi].
  - apply store_text_at; rewrite ?length_insert; lia.
  - rewrite store_text_above by lia. buffer_lookup.
Qed.

Lemma print_short_text_witness :
  let s := after Panel.clear (Panel.__init__ true 0x10) in
  let text := str "Hello World" in
  let s' := after (Panel.print text Panel.RED) s in
  result (Panel.print text Panel.RED) s = Return tt /\
  mode_of s' = Some 3 /\
  _buffer s' !! 2%nat = Some Panel.RED /\
  (forall i ch, text !! i = Some ch -> _buffer s' !! (6 + i)%nat = Some (ord ch)) /\
  (forall j, (6 + length text <= j)%nat -> _buffer s' !! j = _buffer s !! j).
Proof.
  apply (print_short_text (after Panel.clear (Panel.__init__ true 0x10))
           (str "Hello World") Panel.RED).
  - closed_panel_ok.
  - vm_compute. lia.
  - unfold ascii_text. vm_compute.
    repeat (constructor; [split; congruence|]). constructor.
  - unfold Panel.RED. lia.
Defined.

(** X14. [print] writes the characters and nothing behind them: after a
    text of at most 11 characters and then a text no longer than it, the
    text bytes hold the second text followed by the tail of the first. *)
Theorem print_keeps_stale_tail (s : state) (t1 t2 : pystr) (c1 c2 : Z) :
  panel_ok s -> ascii_text t1 -> ascii_text t2 ->
  (length t2 <= length t1 <= 11)%nat -> 0 <= c1 <= 255 -> 0 <= c2 <= 255 ->
  let s2 := after (Panel.print t2 c2) (after (Panel.print t1 c1) s) in
  forall i, (i < length t1)%nat ->
    _buffer s2 !! (6 + i)%nat = (t2 ++ drop (length t2) t1) !! i.
Proof.
  intros Hok Ht1 Ht2 Hlen Hc1 Hc2 s2 i Hi. subst s2.
  assert (Hok1 : panel_ok (after (Panel.print t1 c1) s))
    by exact (panel_ok_after s (Print t1 c1) Hok).
  rewrite print_text_bytes by (first [assumption | lia]).
  destruct (Nat.ltb_spec i (length t2)) as [Hi2|Hi2].
  - rewrite lookup_app_l by exact Hi2. reflexivity.
  - rewrite print_text_bytes by (first [assumption | lia]).
    destruct (Nat.ltb_spec i (length t1)) as [_|Hge]; [|lia].
    rewrite lookup_app_r by exact Hi2. rewrite lookup_drop.
    f_equal. lia.
Qed.

Lemma print_keeps_stale_tail_witness :
  let s := Panel.__init__ true 0x10 in
  let s2 := after (Panel.print (str "Hi") Panel.RED)
                  (after (Panel.print (str "Hello World") Panel.WHITE) s) in
  _buffer s2 !! (6 + 4)%nat =
    (str "Hi" ++ drop (length (str "Hi")) (str "Hello World")) !! 4%nat /\
  _buffer s2 !! (6 + 4)%nat = Some 111.
Proof.
  split; [|reflexivity].
  apply (print_keeps_stale_tail (Panel.__init__ true 0x10)
           (str "Hello World") (str "Hi") Panel.WHITE Panel.RED).
  - closed_panel_ok.
  - unfold ascii_text. vm_compute.
    repeat (constructor; [split; congruence|]). constructor.
  - unfold ascii_text. vm_compute.
    repeat (constructor; [split; congruence|]). constructor.
  - vm_compute. lia.
  - unfold Panel.WHITE. lia.
  - unfold Panel.RED. lia.
  - vm_compute. lia.
Defined.

(** The state the text loop is in when it runs off the bytearray: every
    byte up to the end has been stored. *)
Lemma text_loop_overflow_state (text : pystr) (n k : nat) (s : state) :
  (k + n <= length text)%nat -> Forall is_byte text ->
  (6 + k <= length (_buffer s) < 6 + k + n)%nat ->
  for_ (seq k n) (fun i => ch ← str_getitem text i; setitem (6 + i) (ord ch)) s =
  (set_buffer (store_text text k (length (_buffer s) - (6 + k)) (_buffer s)) s,
   Raise IndexError).
Proof.
  intros Htext Hbytes. revert k s Htext.
  induction n as [|n IH]; intros k s Htext Hbuf; [lia|].
  cbn [seq for_].
  destruct (lookup_lt_is_Some_2 text k ltac:(lia)) as [ch Hch].
  assert (Hb : is_byte ch) by (rewrite Forall_lookup in Hbytes; eauto).
  rewrite bind_assoc. erewrite bind_str_getitem by exact Hch. unfold ord.
  destruct (decide (6 + k < length (_buffer s))%nat) as [Hlt|Hge].
  - rewrite bind_setitem by assumption.
    rewrite IH by (rewrite ?buffer_set_buffer, ?length_insert; lia).
    rewrite buffer_set_buffer, set_buffer_twice, length_insert.
    replace (length (_buffer s) - (6 + k))%nat
      with (S (length (_buffer s) - (6 + S k)))%nat by lia.
    cbn [store_text]. rewrite Hch. reflexivity.
  - rewrite bind_eq, setitem_IndexError by lia.
    replace (length (_buffer s) - (6 + k))%nat with 0%nat by lia.
    cbn [store_text]. rewrite set_buffer_same. reflexivity.
Qed.

(** X15. A text of 12 to 50 ASCII characters is not rejected, it fails
    half-way: [print] raises [IndexError] and writes nothing to the bus -
    even with auto-flush on - but by then the buffer has been changed:
    byte 0 is the write register, the mode field is 3, byte 2 is the
    colour and bytes 6..16 hold the first eleven characters. *)
Theorem print_overflow_partial_write (s : state) (text : pystr) (c : Z) :
  panel_ok s -> (11 < length text <= 50)%nat -> ascii_text text -> 0 <= c <= 255 ->
  let s' := after (Panel.print text c) s in
  result (Panel.print text c) s = Raise IndexError /\
  i2c_bus s' = i2c_bus s /\
  _buffer s' !! 0%nat = Some Panel.write_reg /\
  mode_of s' = Some 3 /\
  _buffer s' !! 2%nat = Some c /\
  forall i, (i < 11)%nat -> _buffer s' !! (6 + i)%nat = text !! i.
Proof.
  intros Hok Hlong Htext Hc s'.
  destruct (panel_ok_byte s 1 Hok ltac:(lia)) as (b1 & Hb1 & Hb).
  destruct (masked_mode b1 3 Hb ltac:(lia)) as (Hv & Hmode & _).
  pose proof (ascii_text_bytes text Htext) as Hbytes.
  assert (Hcb : is_byte c) by (unfold is_byte; lia).
  destruct Hok as [Hdev Hsize Hlen Hbytes'].
  assert (Hrun : Panel.print text c s =
            (set_buffer
               (store_text text 0 11
                  (<[2%nat:=c]>
                     (<[1%nat:=Z.lor (Z.land b1 0xe6) (Z.shiftl 0x03 3)]>
                        (<[0%nat:=Panel.write_reg]> (_buffer s))))) s,
             Raise IndexError)).
  { unfold Panel.print.
    destruct (Nat.ltb_spec Panel.SIZE (length text)) as [Hover|_];
      [unfold Panel.SIZE in Hover; lia|].
    repeat step. unfold range. rewrite bind_eq.
    rewrite text_loop_overflow_state
      by (first [assumption | rewrite ?buffer_set_buffer, ?length_insert; lia]).
    rewrite buffer_set_buffer, set_buffer_twice, !length_insert, Hlen.
    reflexivity. }
  subst s'. unfold result, after, mode_of. rewrite Hrun. cbn [fst snd].
  rewrite buffer_set_buffer.
  split; [reflexivity|]. split; [reflexivity|].
  split; [rewrite store_text_below by lia; buffer_lookup|].
  split; [rewrite store_text_below by lia; buffer_lookup;
          cbn [fmap option_fmap option_map]; rewrite Hmode; reflexivity|].
  split; [rewrite store_text_below by lia; buffer_lookup|].
  intros i Hi. apply store_text_at; rewrite ?length_insert; lia.
Qed.

Lemma print_overflow_partial_write_witness :
  let s := Panel.__init__ true 0x10 in
  let text := str "Hello World!" in
  let s' := after (Panel.print text Panel.RED) s in
  result (Panel.print text Panel.RED) s = Raise IndexError /\
  i2c_bus s' = i2c_bus s /\
  _buffer s' !! 0%nat = Some Panel.write_reg /\
  mode_of s' = Some 3 /\
  _buffer s' !! 2%nat = Some Panel.RED /\
  forall i, (i < 11)%nat -> _buffer s' !! (6 + i)%nat = text !! i.
Proof.
  apply (print_overflow_partial_write (Panel.__init__ true 0x10)
           (str "Hello World!") Panel.RED).
  - closed_panel_ok.
  - vm_compute. lia.
  - unfold ascii_text. vm_compute.
    repeat (constructor; [split; congruence|]). constructor.
  - unfold Panel.RED. lia.
Defined.

(** ** The flush comes last *)

Lemma returning_calls_flush_witness :
  let s := after Panel.clear (Panel.__init__ true 0x10) in
  let text := str "Hello World" in
  let n := if _auto_write s then 1 else 0 in
  flushes s (after (Panel.pixel 3 5 Panel.RED) s) = n /\
  flushes s (after (Panel.print text Panel.RED) s) = n /\
  flushes s (after (Panel.fillScreen Panel.RED) s) = n /\
  flushes s (after Panel.clear s) = n /\
  flushes s (after (Panel.display 4 Panel.RED) s) = n /\
  flushes s (after (Panel.scroll PyNone) s) = n /\
  flushes s (after (Panel.scroll (PyInt Panel.Left)) s) = n /\
  flushes s (after (Panel.scroll (PyInt Panel.Right)) s) = n.
Proof.
  apply (returning_calls_flush (after Panel.clear (Panel.__init__ true 0x10))
           3 5 4 Panel.RED (str "Hello World")).
  - closed_panel_ok.
  - unfold is_byte. lia.
  - unfold is_byte. lia.
  - unfold is_byte. lia.
  - unfold is_byte, Panel.RED. lia.
  - vm_compute. lia.
  - vm_compute. repeat (constructor; [split; congruence|]). constructor.
Defined.

Lemma steady_setitem (log : list (Z * list Z)) (i : nat) (v : Z) :
  preserves (steady log) (setitem i v).
Proof.
  intros s [Hok Hlog]. split.
  - apply (panel_at_setitem (_RGBAddress s) i v s). split; [exact Hok | reflexivity].
  - unfold after, setitem.
    destruct (i <? length (_buffer s))%nat; [|exact Hlog].
    destruct ((0 <=? v) && (v <? 256)); exact Hlog.
Qed.

Lemma steady_getitem (log : list (Z * list Z)) (i : nat) :
  preserves (steady log) (getitem i).
Proof. intros s H. unfold after, getitem. destruct (_buffer s !! i); exact H. Qed.

Ltac keeps_steady :=
  repeat first
    [ apply steady_setitem
    | apply steady_getitem
    | apply preserves_str_getitem
    | apply preserves_ret
    | apply preserves_for; intros ?
    | apply preserves_bind; [|intros ?] ].

Lemma steady_bind {A} (log : list (Z * list Z)) (m : M A) (k : A -> M unit) :
  preserves (steady log) m ->
  (forall a s, steady log s -> flushed_at_most_once log (k a s)) ->
  forall s, steady log s -> flushed_at_most_once log ((m ≫= k) s).
Proof.
  intros Hm Hk s Hs. rewrite bind_eq. specialize (Hm s Hs). unfold after in Hm.
  destruct (m s) as [s' [a|e]]; cbn [fst] in Hm.
  - apply Hk. exact Hm.
  - left. apply Hm.
Qed.

Lemma steady_flush (log : list (Z * list Z)) (s : state) :
  steady log s -> flushed_at_most_once log (Panel.flush_if_auto s).
Proof.
  intros [[Hdev Hsize Hlen Hbytes] Hlog].
  rewrite flush_if_auto_eq by congruence.
  unfold flushed_at_most_once, auto_shown, shown. cbn [fst snd].
  destruct (_auto_write s); [right|left; exact Hlog].
  split; [reflexivity|]. eexists. cbn [i2c_bus push_frame]. rewrite Hlog. reflexivity.
Qed.

Lemma steady_py_print (log : list (Z * list Z)) (line : string) (s : state) :
  steady log s -> flushed_at_most_once log (py_print line s).
Proof. intros [_ Hlog]. left. exact Hlog. Qed.

Lemma steady_ret (log : list (Z * list Z)) (s : state) :
  steady log s -> flushed_at_most_once log (ret tt s).
Proof. intros [_ Hlog]. left. exact Hlog. Qed.

Ltac flush_last :=
  repeat first
    [ apply steady_flush
    | apply steady_py_print
    | apply steady_ret
    | apply steady_bind; [keeps_steady | intros ?; cbv beta] ].

Lemma steady_run (log : list (Z * list Z)) (c : call) :
  is_drawing c = true ->
  forall s, steady log s -> flushed_at_most_once log (run c s).
Proof.
  destruct c as [value| | |direction|picIndex color|text color|x y color|color| |];
    cbn [run is_drawing]; intros Hdraw; try discriminate Hdraw.
  - unfold Panel.sys_disable. flush_last.
  - unfold Panel.sys_enable. flush_last.
  - unfold Panel.scroll.
    destruct (negb (is_None direction) && negb (py_eq_int direction Panel.Right)
              && negb (py_eq_int direction Panel.Left)); [flush_last|].
    destruct (is_None direction); [flush_last|].
    destruct (py_eq_int direction Panel.Right); [flush_last|].
    destruct (py_eq_int direction Panel.Left); flush_last.
  - unfold Panel.display. flush_last.
  - unfold Panel.print.
    destruct (Panel.SIZE <? length text)%nat; flush_last.
  - unfold Panel.pixel. flush_last.
  - unfold Panel.fillScreen. flush_last.
  - unfold Panel.clear. flush_last.
Qed.

(** X17. The flush is the last thing a drawing call does: whatever the
    arguments, a call writes at most one frame to the bus, and a call that
    raises has written none. *)
Theorem flush_comes_last (s : state) (c : call) :
  panel_ok s -> is_drawing c = true ->
  0 <= flushes s (after (run c) s) <= 1 /\
  forall e, result (run c) s = Raise e -> i2c_bus (after (run c) s) = i2c_bus s.
Proof.
  intros Hok Hdraw.
  pose proof (steady_run (i2c_bus s) c Hdraw s (conj Hok eq_refl)) as H.
  unfold flushed_at_most_once in H. unfold flushes, after, result.
  destruct H as [Hsame|[Hret [f Hone]]].
  - rewrite Hsame. split; [lia|]. intros _ _. reflexivity.
  - rewrite Hone, length_app. cbn [length]. split; [lia|].
    intros e He. rewrite Hret in He. discriminate He.
Qed.

Lemma flush_comes_last_witness :
  let s := Panel.__init__ true 0x10 in
  let c := Print (str "Hello World!") Panel.RED in
  result (run c) s = Raise IndexError /\
  0 <= flushes s (after (run c) s) <= 1 /\
  forall e, result (run c) s = Raise e -> i2c_bus (after (run c) s) = i2c_bus s.
Proof.
  split; [reflexivity|].
  apply (flush_comes_last (Panel.__init__ true 0x10)
           (Print (str "Hello World!") Panel.RED)).
  - closed_panel_ok.
  - reflexivity.
Defined.

(** ** Switching auto-flush *)

(** X18. [auto_write(b)] for a boolean [b] returns and changes neither the
    buffer nor the bus; from then on a [pixel] call with byte arguments
    flushes once if [b] is [True] and not at all if it is [False],
    whatever the setting was before.  Any other argument - an integer, a
    string, [None] - raises [ValueError] and leaves the driver as it was. *)
Theorem auto_write_switches_flush (s : state) (b : bool) (x y c : Z) :
  panel_ok s -> 0 <= x <= 255 -> 0 <= y <= 255 -> 0 <= c <= 255 ->
  let s1 := after (Panel.auto_write (PyBool b)) s in
  result (Panel.auto_write (PyBool b)) s = Return tt /\
  _buffer s1 = _buffer s /\
  i2c_bus s1 = i2c_bus s /\
  flushes s1 (after (Panel.pixel x y c) s1) = (if b then 1 else 0) /\
  forall v, (forall b', v <> PyBool b') ->
    Panel.auto_write v s = (s, Raise ValueError).
Proof.
  intros Hok Hx Hy Hc s1.
  destruct (panel_ok_byte s 1 Hok ltac:(lia)) as (b1 & Hb1 & Hb).
  assert (Hok1 : panel_ok s1) by exact (panel_ok_after s (Auto_write (PyBool b)) Hok).
  split; [reflexivity|]. split; [reflexivity|]. split; [reflexivity|].
  split.
  - unfold after at 1.
    rewrite (pixel_eq s1 x y c b1 Hok1 Hb1) by (unfold is_byte; lia).
    cbn [fst]. rewrite flushes_after_stores. reflexivity.
  - intros v Hv. destruct v as [|z|b'|t]; try reflexivity.
    exfalso. exact (Hv b' eq_refl).
Qed.

Lemma auto_write_switches_flush_witness :
  let s := Panel.__init__ true 0x10 in
  let s1 := after (Panel.auto_write (PyBool false)) s in
  result (Panel.auto_write (PyBool false)) s = Return tt /\
  _buffer s1 = _buffer s /\
  i2c_bus s1 = i2c_bus s /\
  flushes s1 (after (Panel.pixel 3 5 Panel.RED) s1) = 0 /\
  forall v, (forall b', v <> PyBool b') ->
    Panel.auto_write v s = (s, Raise ValueError).
Proof.
  apply (auto_write_switches_flush (Panel.__init__ true 0x10) false 3 5 Panel.RED).
  - closed_panel_ok.
  - lia.
  - lia.
  - unfold Panel.RED. lia.
Defined.
